(** * Screenshot extractor: the two [extract-screenshots.py] scripts

    A shallow embedding of [src/extract-screenshots.py] (module [Root]) and
    [src/examples/browser-mcp/extract-screenshots.py] (module [BrowserMcp]).

    Python values are the JSON values [json.load] returns; a [str] is a list
    of code points; the file system is a finite map from paths to nodes;
    [print] appends a line to the output of the run; exceptions are an error
    result that carries the file system reached so far. *)

From Stdlib Require Import ZArith NArith String Ascii Floats.SpecFloat DecimalNat Lia.
From stdpp Require Import base option list gmap.

Set Warnings "-register-all".
Local Open Scope nat_scope.

(** ** Python strings *)

(** A Python [str] is a sequence of Unicode code points. *)
Abbreviation str := (list N).

(** An ASCII literal of the source as a [str]. *)
Definition lit (s : string) : str :=
  (fun a => N_of_ascii a) <$> list_ascii_of_string s.

(** [s.startswith(p)] *)
Fixpoint startswith (s p : str) {struct p} : bool :=
  match p, s with
  | [], _ => true
  | _ :: _, [] => false
  | a :: p', b :: s' => N.eqb a b && startswith s' p'
  end.

(** [s.replace(old, new)] for a non-empty [old] (every call site passes a
    literal): all non-overlapping occurrences, left to right. [skip] counts
    the characters of a matched occurrence still to be dropped. *)
Fixpoint replace_from (old new : str) (skip : nat) (s : str) : str :=
  match s with
  | [] => []
  | c :: s' =>
      match skip with
      | S k => replace_from old new k s'
      | O =>
          if startswith s old
          then new ++ replace_from old new (length old - 1) s'
          else c :: replace_from old new 0 s'
      end
  end.

Definition replace (s old new : str) : str := replace_from old new 0 s.

(** [s.split(sep)[0]] for a one-character [sep]: the text before the first
    [sep], the whole of [s] when there is none. *)
Fixpoint split_head (s : str) (sep : N) : str :=
  match s with
  | [] => []
  | c :: s' => if N.eqb c sep then [] else c :: split_head s' sep
  end.

(** [sub in s] on strings: substring test. *)
Fixpoint contains (s sub : str) : bool :=
  startswith s sub ||
  match s with
  | [] => false
  | _ :: s' => contains s' sub
  end.

(** Decimal digits, as [str(n)] and the [{n}] of an f-string print a
    non-negative integer. *)
Fixpoint digits (u : Decimal.uint) : str :=
  match u with
  | Decimal.Nil => []
  | Decimal.D0 u => 48%N :: digits u
  | Decimal.D1 u => 49%N :: digits u
  | Decimal.D2 u => 50%N :: digits u
  | Decimal.D3 u => 51%N :: digits u
  | Decimal.D4 u => 52%N :: digits u
  | Decimal.D5 u => 53%N :: digits u
  | Decimal.D6 u => 54%N :: digits u
  | Decimal.D7 u => 55%N :: digits u
  | Decimal.D8 u => 56%N :: digits u
  | Decimal.D9 u => 57%N :: digits u
  end.

Definition decimal (n : nat) : str := digits (Nat.to_uint n).

(** [{n:02d}]: zero-padded on the left to a width of two. *)
Definition format_02d (n : nat) : str :=
  let d := decimal n in
  replicate (2 - length d) 48%N ++ d.

(** [os.path.join(a, b)] on POSIX: an absolute [b] discards [a]. Both
    call sites pass the directory name [extracted_screenshots], which is
    not empty and does not end in a slash. *)
Definition path_join (a b : str) : str :=
  if startswith b (lit "/") then b else a ++ lit "/" ++ b.

(** ** Python values *)

(** What [json.load] builds: [None], [bool], [int], [float], [str], [list]
    and [dict]. A [dict] keeps its keys in insertion order; the parser
    leaves one binding per key, and lookup takes the first. *)
Inductive json : Type :=
  | JNull
  | JBool (b : bool)
  | JInt (z : Z)
  | JFloat (f : spec_float)
  | JStr (s : str)
  | JArr (items : list json)
  | JObj (fields : list (str * json)).

Inductive exn : Type :=
  | AttributeError
  | TypeError
  | KeyError
  | IndexError
  | JSONDecodeError
  | RecursionError
  | UnicodeDecodeError
  | UnicodeEncodeError
  | FileNotFoundError
  | FileExistsError
  | IsADirectoryError
  | PermissionError
  | OSError.

(** The value of an expression that may raise. *)
Inductive res (A : Type) : Type :=
  | Ok (a : A)
  | Raise (e : exn).
Arguments Ok {A} a.
Arguments Raise {A} e.

Definition res_bind {A B} (r : res A) (k : A -> res B) : res B :=
  match r with
  | Ok a => k a
  | Raise e => Raise e
  end.

Fixpoint dict_get (fields : list (str * json)) (key : str) : option json :=
  match fields with
  | [] => None
  | (k, v) :: rest => if decide (k = key) then Some v else dict_get rest key
  end.

(** [v.get(key, default)]: only a [dict] has the method. *)
Definition get (v : json) (key : str) (default : json) : res json :=
  match v with
  | JObj fields => Ok (from_option id default (dict_get fields key))
  | _ => Raise AttributeError
  end.

(** Truth value of [v], as [if v], [not v] and [and] test it. *)
Definition truthy (v : json) : bool :=
  match v with
  | JNull => false
  | JBool b => b
  | JInt z => negb (Z.eqb z 0)
  | JFloat (S754_zero _) => false
  | JFloat _ => true
  | JStr s => negb (Nat.eqb (length s) 0)
  | JArr items => negb (Nat.eqb (length items) 0)
  | JObj fields => negb (Nat.eqb (length fields) 0)
  end.

(** [len(v)] *)
Definition len (v : json) : res nat :=
  match v with
  | JStr s => Ok (length s)
  | JArr items => Ok (length items)
  | JObj fields => Ok (length fields)
  | _ => Raise TypeError
  end.

(** The elements a [for] loop draws from [v]: the items of a list, the
    characters of a string, the keys of a dict. *)
Definition iter (v : json) : res (list json) :=
  match v with
  | JArr items => Ok items
  | JStr s => Ok ((fun c => JStr [c]) <$> s)
  | JObj fields => Ok ((fun kv => JStr kv.1) <$> fields)
  | _ => Raise TypeError
  end.

(** [key in v] for a string [key]. *)
Definition py_in (key : str) (v : json) : res bool :=
  match v with
  | JObj fields => Ok (bool_decide (is_Some (dict_get fields key)))
  | JArr items =>
      Ok (existsb (fun x => match x with
                            | JStr s => bool_decide (s = key)
                            | _ => false
                            end) items)
  | JStr s => Ok (contains s key)
  | _ => Raise TypeError
  end.

(** [v[key]] for a string [key]. *)
Definition subscript_key (v : json) (key : str) : res json :=
  match v with
  | JObj fields =>
      match dict_get fields key with
      | Some x => Ok x
      | None => Raise KeyError
      end
  | _ => Raise TypeError
  end.

(** [v[0]]: a dict built from JSON has string keys only, so [0] is never
    one of them. *)
Definition subscript_0 (v : json) : res json :=
  match v with
  | JArr (x :: _) => Ok x
  | JArr [] => Raise IndexError
  | JStr (c :: _) => Ok (JStr [c])
  | JStr [] => Raise IndexError
  | JObj _ => Raise KeyError
  | _ => Raise TypeError
  end.

(** The receiver of a [str] method call ([replace], [startswith], [split]):
    no other JSON value has these methods. *)
Definition the_str (v : json) : res str :=
  match v with
  | JStr s => Ok s
  | _ => Raise AttributeError
  end.

(** ** The platform

    What the scripts take from Python's library and from the operating
    system, and do not define themselves. *)

Inductive node : Type :=
  | File (content : str)
  | Dir.

Record platform : Type := {
  (** [json.loads] on a text; [json.load] is [json.loads] of what it read *)
  json_loads : str -> res json;
  (** [str(v)] for a value that is not a [str], as an f-string formats it *)
  str_of : json -> str;
  (** [c.isalnum()] on a character *)
  isalnum : N -> bool;
  (** [datetime.fromisoformat(t).strftime('%Y%m%d_%H%M%S')], [None] when
      [fromisoformat] raises *)
  fromisoformat_strftime : str -> option str;
  (** why reading an existing file fails, if it does (permissions, bytes
      that do not decode) *)
  read_error : gmap str node -> str -> option exn;
  (** why [open(path, 'w')] fails, if it does (missing parent directory,
      the path is a directory, permissions, an invalid name) *)
  open_error : gmap str node -> str -> option exn;
  (** why [f.write(s)] or the closing flush fails, if it does (disk full,
      characters the encoding lacks) *)
  write_error : gmap str node -> str -> str -> option exn;
  (** why creating a directory that does not exist fails, if it does *)
  makedirs_error : gmap str node -> str -> option exn;
}.

(** ** Runs: file system, printed lines, exceptions *)

Section Run.
Context {line : Type}.

(** Where a computation ends: its value or the exception that left it,
    the file system then, and the lines it printed. *)
#[projections(primitive)] Record outcome (A : Type) : Type := Outcome {
  result : res A;
  disk : gmap str node;
  printed : list line;
}.
Arguments Outcome {A} _ _ _.
Arguments result {A} _.
Arguments disk {A} _.
Arguments printed {A} _.

Definition M (A : Type) : Type := gmap str node -> outcome A.

Definition ret {A} (a : A) : M A := fun fs => Outcome (Ok a) fs [].

Definition raise {A} (e : exn) : M A := fun fs => Outcome (Raise e) fs [].

Definition bind {A B} (m : M A) (k : A -> M B) : M B := fun fs =>
  let o := m fs in
  match result o with
  | Ok a =>
      let o' := k a (disk o) in
      Outcome (result o') (disk o') (printed o ++ printed o')
  | Raise e => Outcome (Raise e) (disk o) (printed o)
  end.

(** [try: m  except Exception as e: handler e] *)
Definition try_except {A} (m : M A) (handler : exn -> M A) : M A := fun fs =>
  let o := m fs in
  match result o with
  | Ok a => o
  | Raise e =>
      let o' := handler e (disk o) in
      Outcome (result o') (disk o') (printed o ++ printed o')
  end.

Definition lift {A} (r : res A) : M A :=
  match r with
  | Ok a => ret a
  | Raise e => raise e
  end.

Definition print (l : line) : M unit := fun fs => Outcome (Ok tt) fs [l].

Variable P : platform.

(** [os.path.exists(path)] *)
Definition path_exists (path : str) : M bool := fun fs =>
  Outcome (Ok (bool_decide (is_Some (fs !! path)))) fs [].

(** [with open(path, 'r') as f: f.read()] *)
Definition read_text (path : str) : M str := fun fs =>
  match fs !! path with
  | None => Outcome (Raise FileNotFoundError) fs []
  | Some Dir => Outcome (Raise IsADirectoryError) fs []
  | Some (File text) =>
      match read_error P fs path with
      | Some e => Outcome (Raise e) fs []
      | None => Outcome (Ok text) fs []
      end
  end.

(** [with open(path, 'r') as f: json.load(f)] *)
Definition load (path : str) : M json :=
  bind (read_text path) (fun text => lift (json_loads P text)).

(** [open(path, 'w')]: the file is created, or emptied if it exists. *)
Definition open_w (path : str) : M unit := fun fs =>
  match open_error P fs path with
  | Some e => Outcome (Raise e) fs []
  | None => Outcome (Ok tt) (<[path := File []]> fs) []
  end.

(** [f.write(v)] on the file just opened at [path], closed right after:
    a text file takes a [str] only. *)
Definition write (path : str) (v : json) : M unit := fun fs =>
  match v with
  | JStr s =>
      match write_error P fs path s with
      | Some e => Outcome (Raise e) fs []
      | None => Outcome (Ok tt) (<[path := File s]> fs) []
      end
  | _ => Outcome (Raise TypeError) fs []
  end.

(** [os.makedirs(path, exist_ok=True)] for a one-component [path] *)
Definition makedirs (path : str) : M unit := fun fs =>
  match fs !! path with
  | Some Dir => Outcome (Ok tt) fs []
  | Some (File _) => Outcome (Raise FileExistsError) fs []
  | None =>
      match makedirs_error P fs path with
      | Some e => Outcome (Raise e) fs []
      | None => Outcome (Ok tt) (<[path := Dir]> fs) []
      end
  end.
End Run.

Arguments outcome : clear implicits.
Arguments M : clear implicits.
Arguments Outcome {line A} _ _ _.
Arguments result {line A} _.
Arguments disk {line A} _.
Arguments printed {line A} _.

Declare Scope py_scope.
Delimit Scope py_scope with py.
Notation "'let*' x ':=' m 'in' k" := (bind m (fun x => k))
  (at level 10, x name, m at level 100, k at level 200) : py_scope.
Notation "m ';;' k" := (bind m (fun _ => k))
  (at level 100, k at level 200, only parsing, right associativity) : py_scope.
Local Open Scope py_scope.

(** [for i, x in enumerate(items, start)], threading the one local variable
    the loop body assigns. An exception in the body leaves the loop. *)
Fixpoint for_enumerate {line S : Type} (body : nat -> json -> S -> M line S)
    (start : nat) (items : list json) (s : S) : M line S :=
  match items with
  | [] => ret s
  | x :: rest =>
      let* s' := body start x s in
      for_enumerate body (Datatypes.S start) rest s'
  end.

(** The lines of a callee under the line type of its caller. *)
Definition relabel {line line' A : Type} (f : line -> line') (m : M line A)
    : M line' A := fun fs =>
  let o := m fs in
  Outcome (result o) (disk o) (f <$> printed o).

(** How [main] ends: it returns, or it leaves through [sys.exit(code)]. *)
Inductive ending : Type :=
  | Returned
  | Exited (code : nat).

(** The exit status of the process that ran [main()] as the script does
    under [if __name__ == "__main__"]: 0 after a return, the code of
    [sys.exit], 1 after an exception nothing caught. *)
Definition exit_status {line : Type} (o : outcome line ending) : nat :=
  match result o with
  | Ok Returned => 0
  | Ok (Exited code) => code
  | Raise _ => 1
  end.

(** The exception [load] leaves with, if it does: the path is missing or
    a directory, the read is refused, or the text does not parse. *)
Definition load_failure (P : platform) (fs : gmap str node) (path : str)
    : option exn :=
  match fs !! path with
  | None => Some FileNotFoundError
  | Some Dir => Some IsADirectoryError
  | Some (File text) =>
      match read_error P fs path with
      | Some e => Some e
      | None =>
          match json_loads P text with
          | Ok _ => None
          | Raise e => Some e
          end
      end
  end.



(** [output_dir = "extracted_screenshots"], in both scripts *)
Definition output_dir : str := lit "extracted_screenshots".

(** The prefix both scripts test [metadata.screenshot] for. *)
Definition image_prefix : str := lit "data:image/".

(** [screenshot_data and screenshot_data.startswith('data:image/')] as the
    [if] reads it: a falsy value decides at once, a truthy one must have
    the method. *)
Definition is_screenshot (screenshot_data : json) : res bool :=
  if truthy screenshot_data
  then res_bind (the_str screenshot_data) (fun s => Ok (startswith s image_prefix))
  else Ok false.

(** [f"{v}"] *)
Definition format_value (P : platform) (v : json) : str :=
  match v with
  | JStr s => s
  | _ => str_of P v
  end.

(** How many elements of [l] satisfy [f]. *)
Definition count {A} (f : A -> bool) (l : list A) : nat :=
  length (List.filter f l).

(** The characters [0] to [9]. *)
Definition is_digit (c : N) : Prop := (48 <= c <= 57)%N.

(** ** Result entries, as section 3 of the specification describes them *)

(** The value of [metadata.screenshot], when the entry is an object whose
    [metadata] is an object with that field. *)
Definition metadata_screenshot (entry : json) : option json :=
  match entry with
  | JObj fields =>
      match dict_get fields (lit "metadata") with
      | Some (JObj metadata) => dict_get metadata (lit "screenshot")
      | _ => None
      end
  | _ => None
  end.

(** The screenshot payload of a qualifying entry: a string that starts
    with [data:image/]. *)
Definition screenshot_of (entry : json) : option str :=
  match metadata_screenshot entry with
  | Some (JStr s) => if startswith s image_prefix then Some s else None
  | _ => None
  end.


(** An optional field that holds a string when it is present. *)
Definition optional_str (fields : list (str * json)) (key : str) : bool :=
  match dict_get fields key with
  | None | Some (JStr _) => true
  | Some _ => false
  end.

(** A ResultEntry: an object with optional strings [id], [url] and
    [timestamp], an optional object [metadata] with an optional string
    [screenshot], and an optional object [data] with an optional boolean
    [navigated]. *)
Definition valid_entry (entry : json) : bool :=
  match entry with
  | JObj fields =>
      optional_str fields (lit "id")
      && optional_str fields (lit "url")
      && optional_str fields (lit "timestamp")
      && match dict_get fields (lit "metadata") with
         | None => true
         | Some (JObj metadata) => optional_str metadata (lit "screenshot")
         | Some _ => false
         end
      && match dict_get fields (lit "data") with
         | None => true
         | Some (JObj data) =>
             match dict_get data (lit "navigated") with
             | None | Some (JBool _) => true
             | Some _ => false
             end
         | Some _ => false
         end
  | _ => false
  end.

(** ** [src/extract-screenshots.py] *)

Module Root.

(** One constructor per [print] call of the script, with the values its
    f-string inserts. *)
Inductive line : Type :=
  | Banner                        (* Screenshot Extractor for Browser MCP Results *)
  | Rule                          (* "=" * 50 *)
  | FileNotFound (json_file : str)
  | ReadingFrom (json_file : str)
  | InvalidJSON (e : exn)
  | ErrorReadingFile (e : exn)
  | NoRecentResults
  | Found (n : nat)               (* Found {len(recent_results)} results *)
  | Extracted (screenshot_count : nat) (filename : str)
  | Url (url : json)
  | DataLength (n : nat)
  | Blank
  | ErrorWriting (filename : str) (e : exn)
  | NoScreenshotsFound
  | HintMetadata
  | Success (screenshot_count : nat) (dir : str)
  | HintView
  | HintStep1
  | HintStep2
  | HintStep3.

Section Script.
Variable P : platform.

(** [clean_url]: lines 66 to 68 *)
Definition clean_url (url : str) : str :=
  let clean_url :=
    replace (replace (replace (replace url (lit "https://") [])
                              (lit "http://") [])
                     (lit "/") (lit "_"))
            (lit ":") (lit "_") in
  if 50 <? length clean_url then take 50 clean_url else clean_url.

(** [timestamp_str]: line 71 *)
Definition timestamp_str (timestamp : json) (i : nat) : res str :=
  if truthy timestamp
  then res_bind (the_str timestamp) (fun t =>
         Ok (split_head (replace (replace t (lit ":") (lit "-"))
                                 (lit "T") (lit "_"))
                        46%N))
  else Ok (lit "screenshot_" ++ decimal i).

(** [filename]: line 72 *)
Definition filename (timestamp_str clean_url : str) (result_id : json) : str :=
  timestamp_str ++ lit "_" ++ clean_url ++ lit "_"
    ++ format_value P result_id ++ lit ".txt".

(** The file name lines 54 to 72 derive for the entry [result] at
    index [i], when they do not raise. *)
Definition filename_of (i : nat) (result : json) : res str :=
  res_bind (get result (lit "id") (JStr (lit "result_" ++ decimal i))) (fun result_id =>
  res_bind (get result (lit "url") (JStr (lit "unknown_url"))) (fun url =>
  res_bind (get result (lit "timestamp") (JStr [])) (fun timestamp =>
  res_bind (the_str url) (fun url_text =>
  res_bind (timestamp_str timestamp i) (fun timestamp_str =>
  Ok (filename timestamp_str (clean_url url_text) result_id)))))).

(** Lines 63 to 86: the entry has a screenshot. The value is
    [screenshot_count] after the entry. *)
Definition save (i : nat) (result_id url timestamp screenshot_data : json)
    (screenshot_count : nat) : M line nat :=
  let screenshot_count := screenshot_count + 1 in
  let* url_text := lift (the_str url) in
  let clean_url := clean_url url_text in
  let* timestamp_str := lift (timestamp_str timestamp i) in
  let filename := filename timestamp_str clean_url result_id in
  let filepath := path_join output_dir filename in
  try_except
    (open_w P filepath;;
     write P filepath screenshot_data;;
     print (Extracted screenshot_count filename);;
     print (Url url);;
     let* n := lift (len screenshot_data) in
     print (DataLength n);;
     print Blank)
    (fun e => print (ErrorWriting filename e));;
  ret screenshot_count.

(** The body of the loop, lines 54 to 86, on the entry [result] at
    index [i]; its value is [screenshot_count] after the entry. *)
Definition body (i : nat) (result : json) (screenshot_count : nat)
    : M line nat :=
  let* result_id := lift (get result (lit "id") (JStr (lit "result_" ++ decimal i))) in
  let* url := lift (get result (lit "url") (JStr (lit "unknown_url"))) in
  let* timestamp := lift (get result (lit "timestamp") (JStr [])) in
  let* metadata := lift (get result (lit "metadata") (JObj [])) in
  let* screenshot_data := lift (get metadata (lit "screenshot") (JStr [])) in
  let* shot := lift (is_screenshot screenshot_data) in
  if shot
  then save i result_id url timestamp screenshot_data screenshot_count
  else ret screenshot_count.

(** Lines 88 to 96 *)
Definition summary (screenshot_count : nat) : M line unit :=
  if screenshot_count =? 0 then
    print NoScreenshotsFound;;
    print HintMetadata
  else
    print (Success screenshot_count output_dir);;
    print HintView;;
    print HintStep1;;
    print HintStep2;;
    print HintStep3.

(** Lines 38 to 96: what the script does with the parsed document. *)
Definition extract_from (data : json) : M line unit :=
  let* recent_results := lift (get data (lit "recentResults") (JArr [])) in
  if negb (truthy recent_results) then
    print NoRecentResults
  else
    let* n := lift (len recent_results) in
    print (Found n);;
    let screenshot_count := 0 in
    makedirs P output_dir;;
    let* items := lift (iter recent_results) in
    let* screenshot_count := for_enumerate body 0 items screenshot_count in
    summary screenshot_count.

(** Lines 28 to 36: the parsed document, or [None] after a reported
    failure (the handlers [return]). *)
Definition read_document (json_file : str) : M line (option json) :=
  try_except
    (let* data := load P json_file in ret (Some data))
    (fun e =>
       match e with
       | JSONDecodeError => print (InvalidJSON e);; ret None
       | _ => print (ErrorReadingFile e);; ret None
       end).

Definition extract_screenshots (json_file : str) : M line unit :=
  print Banner;;
  print Rule;;
  let* found := path_exists json_file in
  if negb found then
    print (FileNotFound json_file)
  else
    print (ReadingFrom json_file);;
    let* loaded := read_document json_file in
    match loaded with
    | None => ret tt
    | Some data => extract_from data
    end.
End Script.

(** The lines printed for one entry: the four of a written file and the
    one of a failed write. The script prints nothing for an entry
    without a screenshot. *)
Definition is_detection (l : line) : bool :=
  match l with
  | Extracted _ _ => true
  | _ => false
  end.

Definition per_entry (l : line) : bool :=
  match l with
  | Extracted _ _ | Url _ | DataLength _ | Blank | ErrorWriting _ _ => true
  | _ => false
  end.

(** The nine lines [main] prints when the argument count is wrong,
    lines 100 to 108. *)
Inductive usage : Type :=
  | Usage                 (* Usage: python3 extract-screenshots.py <json_file> *)
  | UsageBlank
  | ExampleHeading        (* Example: *)
  | ExampleCommand
  | HowToHeading          (* To get the JSON file: *)
  | HowToStep1
  | HowToStep2
  | HowToStep3.

(** [main], lines 98 to 112, on [sys.argv]. *)
Definition main (P : platform) (argv : list str)
    : M (usage + line) ending :=
  if negb (length argv =? 2) then
    print (inl Usage);;
    print (inl UsageBlank);;
    print (inl ExampleHeading);;
    print (inl ExampleCommand);;
    print (inl UsageBlank);;
    print (inl HowToHeading);;
    print (inl HowToStep1);;
    print (inl HowToStep2);;
    print (inl HowToStep3);;
    ret (Exited 1)
  else
    let json_file := nth 1 argv [] in
    relabel inr (extract_screenshots P json_file);;
    ret Returned.
(** Lines 53 to 96: the loop and the summary, once the directory is
    there. *)
Definition pass (P : platform) (recent_results : json) : M line unit :=
  let* items := lift (iter recent_results) in
  let* screenshot_count := for_enumerate (body P) 0 items 0 in
  summary screenshot_count.

End Root.

(** ** [src/examples/browser-mcp/extract-screenshots.py] *)

Module BrowserMcp.

Inductive line : Type :=
  | FileNotFound (input_file : str)
  | HintSaveResults
  | ReadingFrom (input_file : str)
  | NoRecentResults
  | Screenshot (screenshot_count : nat) (filename : str)
  | Size (n : nat)
  | Url (url : json)
  | Time (timestamp : json)
  | Blank
  | Navigation (n : nat) (url : json)   (* Result {i+1}: Navigation to ... *)
  | NoScreenshotData (n : nat)          (* Result {i+1}: No screenshot data found *)
  | NoScreenshotsFound
  | HintPrefix
  | Success (screenshot_count : nat) (dir : str)
  | HintOpen
  | HintDecoder
  | ErrorParsingJSON (e : exn)
  | HintValidJSON
  | UnexpectedError (e : exn).

Section Script.
Variable P : platform.

(** [json.loads(v)]: the argument must be a [str]. *)
Definition loads (v : json) : res json :=
  match v with
  | JStr s => json_loads P s
  | _ => Raise TypeError
  end.

(** Line 36, the direct format: [data.get('recentResults', [])] *)
Definition direct (data : json) : res json :=
  get data (lit "recentResults") (JArr []).

(** Line 29: ['contents' in data and len(data['contents']) > 0] *)
Definition has_contents (data : json) : res bool :=
  res_bind (py_in (lit "contents") data) (fun present =>
  if present : bool then
    res_bind (subscript_key data (lit "contents")) (fun contents =>
    res_bind (len contents) (fun n =>
    Ok (0 <? n)))
  else Ok false).

(** Lines 29 to 36: [recent_results] *)
Definition recent_results (data : json) : res json :=
  res_bind (has_contents data) (fun nested =>
  if nested : bool then
    res_bind (subscript_key data (lit "contents")) (fun contents =>
    res_bind (subscript_0 contents) (fun first =>
    res_bind (get first (lit "text") (JStr (lit "{}"))) (fun browser_results_text =>
    res_bind (loads browser_results_text) (fun browser_results =>
    get browser_results (lit "recentResults") (JArr [])))))
  else direct data).

(** [time_str]: lines 62 to 66. The bare [except] takes every failure,
    a [timestamp] without [replace] included. *)
Definition time_str (timestamp : json) : str :=
  match timestamp with
  | JStr t =>
      match fromisoformat_strftime P (replace t (lit "Z") (lit "+00:00")) with
      | Some s => s
      | None => lit "unknown_time"
      end
  | _ => lit "unknown_time"
  end.

(** [domain]: lines 69 and 70 *)
Definition domain (url : str) : str :=
  let domain :=
    split_head (replace (replace url (lit "https://") []) (lit "http://") [])
               47%N in
  take 30 (filter (fun c => isalnum P c || bool_decide (c ∈ lit ".-_")) domain).

(** [filename]: line 72 *)
Definition filename (screenshot_count : nat) (time_str domain : str) : str :=
  output_dir ++ lit "/screenshot_" ++ format_02d screenshot_count
    ++ lit "_" ++ time_str ++ lit "_" ++ domain ++ lit ".txt".

(** Lines 54 to 82: the entry has a screenshot. The value is
    [screenshot_count] after the entry. *)
Definition save (i : nat) (result screenshot_data : json)
    (screenshot_count : nat) : M line nat :=
  let screenshot_count := screenshot_count + 1 in
  let* result_id := lift (get result (lit "id") (JStr (lit "unknown_" ++ decimal i))) in
  let* url := lift (get result (lit "url") (JStr (lit "unknown_url"))) in
  let* timestamp := lift (get result (lit "timestamp") (JStr [])) in
  let time_str := time_str timestamp in
  let* url_text := lift (the_str url) in
  let domain := domain url_text in
  let filename := filename screenshot_count time_str domain in
  open_w P filename;;
  write P filename screenshot_data;;
  print (Screenshot screenshot_count filename);;
  let* n := lift (len screenshot_data) in
  print (Size n);;
  print (Url url);;
  print (Time timestamp);;
  print Blank;;
  ret screenshot_count.

(** Lines 85 to 90: the entry has no screenshot. *)
Definition skip (i : nat) (result : json) : M line unit :=
  let* data_type := lift (get result (lit "data") (JObj [])) in
  let* navigated := lift (get data_type (lit "navigated") JNull) in
  if truthy navigated then
    let* url := lift (get result (lit "url") (JStr (lit "unknown"))) in
    print (Navigation (i + 1) url)
  else
    print (NoScreenshotData (i + 1)).

(** The body of the loop, lines 49 to 90. *)
Definition body (i : nat) (result : json) (screenshot_count : nat)
    : M line nat :=
  let* metadata := lift (get result (lit "metadata") (JObj [])) in
  let* screenshot_data := lift (get metadata (lit "screenshot") (JStr [])) in
  let* shot := lift (is_screenshot screenshot_data) in
  if shot
  then save i result screenshot_data screenshot_count
  else (skip i result;; ret screenshot_count).

(** Lines 92 to 98 *)
Definition summary (screenshot_count : nat) : M line unit :=
  if screenshot_count =? 0 then
    print NoScreenshotsFound;;
    print HintPrefix
  else
    print (Success screenshot_count output_dir);;
    print HintOpen;;
    print HintDecoder.

(** Lines 28 to 98: what the [try] block does with the parsed
    document. *)
Definition extract_from (data : json) : M line unit :=
  let* recent_results := lift (recent_results data) in
  if negb (truthy recent_results) then
    print NoRecentResults
  else
    let screenshot_count := 0 in
    makedirs P output_dir;;
    let* items := lift (iter recent_results) in
    let* screenshot_count := for_enumerate body 0 items screenshot_count in
    summary screenshot_count.

(** Lines 100 to 104: the two handlers of the [try]. *)
Definition handler (e : exn) : M line unit :=
  match e with
  | JSONDecodeError =>
      print (ErrorParsingJSON e);;
      print HintValidJSON
  | _ => print (UnexpectedError e)
  end.

(** Lines 22 to 98: the [try] block. *)
Definition attempt (input_file : str) : M line unit :=
  let* data := load P input_file in
  print (ReadingFrom input_file);;
  extract_from data.

Definition extract_screenshots (input_file : str) : M line unit :=
  let* found := path_exists input_file in
  if negb found then
    print (FileNotFound input_file);;
    print HintSaveResults
  else
    try_except (attempt input_file) handler.
End Script.

(** The per-entry lines: the line that confirms a written file, and the
    two lines that report an entry without a screenshot. *)
Definition is_detection (l : line) : bool :=
  match l with
  | Screenshot _ _ => true
  | _ => false
  end.

Definition is_skip (l : line) : bool :=
  match l with
  | Navigation _ _ | NoScreenshotData _ => true
  | _ => false
  end.

(** Counter and file name of every confirmation line, in order. *)
Definition shots (ls : list line) : list (nat * str) :=
  omap (fun l => match l with
                 | Screenshot n f => Some (n, f)
                 | _ => None
                 end) ls.

(** What a pass over [items] that starts with the counter at [c] and the
    disk [fs] leaves behind in [o]. [outs] lists counter, name and
    content of the files it confirmed: the counters go up by one from
    [c + 1], every name embeds its counter, the contents are those of the
    first qualifying entries, and every confirmed file still holds its
    content when the pass ends. *)
Definition accounted (c : nat) (fs : gmap str node) (items : list json)
    (o : outcome line nat) : Prop :=
  exists outs : list (nat * str * str),
    shots (printed o) = outs.*1
    /\ outs.*1.*1 = seq (c + 1) (length outs)
    /\ Forall (fun ns : nat * str => exists t d, ns.2 = filename ns.1 t d) outs.*1
    /\ outs.*2 `prefix_of` omap screenshot_of items
    /\ (forall c', result o = Ok c' ->
          c' = c + length outs
          /\ outs.*2 = omap screenshot_of items
          /\ forall p, p ∉ outs.*1.*2 -> disk o !! p = fs !! p)
    /\ (forall p, (forall n t d, c < n -> p <> filename n t d) ->
          disk o !! p = fs !! p)
    /\ (forall n name s, (n, name, s) ∈ outs -> disk o !! name = Some (File s)).

(** The two lines [main] prints before the extraction, lines 113 and
    114. *)
Inductive heading : Type :=
  | Banner                (* Screenshot Extractor for Browser MCP Results *)
  | Rule.                 (* "=" * 50 *)

(** [main], lines 106 to 116, on [sys.argv]. *)
Definition main (P : platform) (argv : list str)
    : M (heading + line) ending :=
  let input_file := lit "test/browser.results" in
  let input_file := if 1 <? length argv then nth 1 argv [] else input_file in
  print (inl Banner);;
  print (inl Rule);;
  relabel inr (extract_screenshots P input_file);;
  ret Returned.

(** Count and directory of every success line, in order. *)
Definition successes (ls : list line) : list (nat * str) :=
  omap (fun l => match l with
                 | Success n d => Some (n, d)
                 | _ => None
                 end) ls.
(** Lines 48 to 98: the loop and the summary, once the directory is
    there. *)
Definition pass (P : platform) (recent_results : json) : M line unit :=
  let* items := lift (iter recent_results) in
  let* screenshot_count := for_enumerate (body P) 0 items 0 in
  summary screenshot_count.

End BrowserMcp.

(** ** Documents and platforms of the examples *)

Module Fixture.

(** [json.dumps] for the documents of the examples: no floats and no
    character that needs an escape. *)
Fixpoint dumps (v : json) : str :=
  match v with
  | JNull => lit "null"
  | JBool true => lit "true"
  | JBool false => lit "false"
  | JInt z =>
      match z with
      | Z0 => lit "0"
      | Zpos p => decimal (Pos.to_nat p)
      | Zneg p => lit "-" ++ decimal (Pos.to_nat p)
      end
  | JFloat _ => lit "NaN"
  | JStr s => 34%N :: s ++ [34%N]
  | JArr items =>
      lit "[" ++
      (fix elements (l : list json) : str :=
         match l with
         | [] => []
         | [x] => dumps x
         | x :: rest => dumps x ++ lit ", " ++ elements rest
         end) items
      ++ lit "]"
  | JObj fields =>
      lit "{" ++
      (fix members (l : list (str * json)) : str :=
         match l with
         | [] => []
         | [(k, x)] => 34%N :: k ++ 34%N :: lit ": " ++ dumps x
         | (k, x) :: rest =>
             34%N :: k ++ 34%N :: lit ": " ++ dumps x ++ lit ", " ++ members rest
         end) fields
      ++ lit "}"
  end.

(** A platform that parses exactly the texts of [docs], formats the
    timestamps of [times], knows the ASCII letters and digits, and
    refuses to open the paths of [refused] for writing. *)
Definition python (docs : list json) (times : list (str * str))
    (refused : list str) : platform := {|
  json_loads text :=
    match List.find (fun d => bool_decide (dumps d = text)) docs with
    | Some d => Ok d
    | None => Raise JSONDecodeError
    end;
  str_of v :=
    match v with
    | JNull => lit "None"
    | JBool true => lit "True"
    | JBool false => lit "False"
    | _ => dumps v
    end;
  isalnum c :=
    ((48 <=? c) && (c <=? 57) || (65 <=? c) && (c <=? 90)
     || (97 <=? c) && (c <=? 122))%N;
  fromisoformat_strftime t :=
    snd <$> List.find (fun kv => bool_decide (kv.1 = t)) times;
  read_error _ _ := None;
  open_error _ path :=
    if bool_decide (path ∈ refused) then Some PermissionError else None;
  write_error _ _ _ := None;
  makedirs_error _ _ := None;
|}.

Definition screenshot_a : str := lit "data:image/png;base64,AAAA".
Definition screenshot_b : str := lit "data:image/png;base64,BBBB".

(** The entry of the scenario that closes section 8 of the
    specification. *)
Definition entry_a : json :=
  JObj [(lit "id", JStr (lit "a"));
        (lit "url", JStr (lit "http://x.com/p"));
        (lit "timestamp", JStr (lit "2024-01-01T00:00:00Z"));
        (lit "metadata", JObj [(lit "screenshot", JStr screenshot_a)])].

Definition entry_b : json :=
  JObj [(lit "id", JStr (lit "b"));
        (lit "url", JStr (lit "https://y.org/q?r=1"));
        (lit "timestamp", JStr (lit "2024-01-01T00:00:05Z"));
        (lit "metadata", JObj [(lit "screenshot", JStr screenshot_b)])].

(** A navigation event: no screenshot. *)
Definition entry_nav : json :=
  JObj [(lit "id", JStr (lit "n"));
        (lit "url", JStr (lit "http://x.com/"));
        (lit "data", JObj [(lit "navigated", JBool true)])].

(** The prefix with its slash replaced: not a screenshot. *)
Definition entry_loose : json :=
  JObj [(lit "id", JStr (lit "l"));
        (lit "metadata", JObj [(lit "screenshot", JStr (lit "data:imagexpng..."))])].

Definition direct_doc (entries : list json) : json :=
  JObj [(lit "recentResults", JArr entries)].

Definition wrapped_doc (inner : json) : json :=
  JObj [(lit "contents", JArr [JObj [(lit "text", JStr (dumps inner))]])].

Definition times : list (str * str) :=
  [(lit "2024-01-01T00:00:00+00:00", lit "20240101_000000");
   (lit "2024-01-01T00:00:05+00:00", lit "20240101_000005")].

Definition input : str := lit "browser-results.json".

(** A working directory that holds the input file with the text of
    [doc] and nothing else. *)
Definition cwd (doc : json) : gmap str node := {[ input := File (dumps doc) ]}.

End Fixture.

(** * Properties *)

(** ** Strings and decimals *)

Lemma startswith_spec (s p : str) :
  startswith s p = true <-> exists rest, s = p ++ rest.
Proof.
  revert s. induction p as [|a p IH]; intros s; simpl.
  - split; [intros _; now exists s | reflexivity].
  - destruct s as [|b s].
    + split; [discriminate|]. intros [rest H]. discriminate.
    + rewrite andb_true_iff, N.eqb_eq, IH. split.
      * intros [-> [rest ->]]. now exists rest.
      * intros [rest H]. injection H as -> ->. split; [reflexivity | now exists rest].
Qed.

Lemma digits_are_digits u : Forall is_digit (digits u).
Proof. induction u; simpl; constructor; auto; unfold is_digit; lia. Qed.

Lemma digits_inj u v : digits u = digits v -> u = v.
Proof.
  revert v. induction u; intros v H; destruct v; simpl in H;
    try discriminate; try reflexivity;
    injection H as H; f_equal; auto.
Qed.

Lemma replicate_zero_digits k u :
  replicate k 48%N ++ digits u = digits (Nat.iter k Decimal.D0 u).
Proof.
  induction k as [|k IH]; simpl; [reflexivity|].
  now rewrite <- IH.
Qed.

Lemma of_uint_leading_zeros k u :
  Nat.of_uint (Nat.iter k Decimal.D0 u) = Nat.of_uint u.
Proof. induction k as [|k IH]; simpl; [reflexivity|]. exact IH. Qed.

Lemma format_02d_inj n m : format_02d n = format_02d m -> n = m.
Proof.
  unfold format_02d, decimal. rewrite !replicate_zero_digits.
  intros H%digits_inj.
  apply (f_equal Nat.of_uint) in H.
  now rewrite !of_uint_leading_zeros, !Unsigned.of_to in H.
Qed.

Lemma format_02d_digits n : Forall is_digit (format_02d n).
Proof.
  unfold format_02d, decimal. rewrite replicate_zero_digits.
  apply digits_are_digits.
Qed.

Lemma digit_run_inj (d1 d2 r1 r2 : str) (c : N) :
  Forall is_digit d1 -> Forall is_digit d2 -> ~ is_digit c ->
  d1 ++ c :: r1 = d2 ++ c :: r2 -> d1 = d2.
Proof.
  intros H1. revert d2. induction H1 as [|x d1 Hx _ IH]; intros d2 H2 Hc H.
  - destruct H2 as [|y d2 Hy _]; [reflexivity|].
    simpl in H. injection H as -> _. contradiction.
  - destruct H2 as [|y d2 Hy H2].
    + simpl in H. injection H as -> _. contradiction.
    + simpl in H. injection H as -> H. f_equal. eauto.
Qed.


Lemma empty_not_image : startswith [] image_prefix = false.
Proof. reflexivity. Qed.

(** From here on literals stay folded in goals. *)
Opaque lit.

(** ** Running a computation step by step *)

Section Laws.
Context {line : Type}.
Implicit Types fs : gmap str node.

Lemma bind_lift {A B} (r : res A) (k : A -> M line B) fs :
  bind (lift r) k fs =
  match r with Ok a => k a fs | Raise e => Outcome (Raise e) fs [] end.
Proof. destruct r; reflexivity. Qed.

Lemma bind_ret {A B} (a : A) (k : A -> M line B) fs : bind (ret a) k fs = k a fs.
Proof. reflexivity. Qed.

Lemma bind_print {B} (l : line) (k : unit -> M line B) fs :
  bind (print l) k fs =
  Outcome (result (k tt fs)) (disk (k tt fs)) (l :: printed (k tt fs)).
Proof. reflexivity. Qed.

Lemma bind_outcome {A B} (m : M line A) (k : A -> M line B) fs r fs' ls :
  m fs = Outcome r fs' ls ->
  bind m k fs =
  match r with
  | Ok a => Outcome (result (k a fs')) (disk (k a fs')) (ls ++ printed (k a fs'))
  | Raise e => Outcome (Raise e) fs' ls
  end.
Proof. intros E. unfold bind. rewrite E. destruct r; reflexivity. Qed.

Lemma bind_ok {A B} (m : M line A) (k : A -> M line B) fs a fs' ls :
  m fs = Outcome (Ok a) fs' ls ->
  bind m k fs =
  Outcome (result (k a fs')) (disk (k a fs')) (ls ++ printed (k a fs')).
Proof. intros E. unfold bind. now rewrite E. Qed.

Lemma bind_raise {A B} (m : M line A) (k : A -> M line B) fs e fs' ls :
  m fs = Outcome (Raise e) fs' ls ->
  bind m k fs = Outcome (Raise e) fs' ls.
Proof. intros E. unfold bind. now rewrite E. Qed.

Lemma try_except_ok {A} (m : M line A) (h : exn -> M line A) fs a fs' ls :
  m fs = Outcome (Ok a) fs' ls ->
  try_except m h fs = Outcome (Ok a) fs' ls.
Proof. intros E. unfold try_except. now rewrite E. Qed.

Lemma try_except_raise {A} (m : M line A) (h : exn -> M line A) fs e fs' ls :
  m fs = Outcome (Raise e) fs' ls ->
  try_except m h fs =
  Outcome (result (h e fs')) (disk (h e fs')) (ls ++ printed (h e fs')).
Proof. intros E. unfold try_except. now rewrite E. Qed.

Variable P : platform.

Lemma bind_open_w {B} path (k : unit -> M line B) fs :
  bind (open_w P path) k fs =
  match open_error P fs path with
  | Some e => Outcome (Raise e) fs []
  | None => k tt (<[path := File []]> fs)
  end.
Proof. unfold bind, open_w. destruct (open_error P fs path); reflexivity. Qed.

Lemma bind_write {B} path s (k : unit -> M line B) fs :
  bind (write P path (JStr s)) k fs =
  match write_error P fs path s with
  | Some e => Outcome (Raise e) fs []
  | None => k tt (<[path := File s]> fs)
  end.
Proof. unfold bind, write. destruct (write_error P fs path s); reflexivity. Qed.

Lemma bind_path_exists {B} path (k : bool -> M line B) fs :
  bind (path_exists path) k fs = k (bool_decide (is_Some (fs !! path))) fs.
Proof. reflexivity. Qed.

Lemma load_run path text fs :
  fs !! path = Some (File text) ->
  read_error P fs path = None ->
  load (line:=line) P path fs = lift (json_loads P text) fs.
Proof.
  intros Hf Hr. unfold load, bind, read_text. rewrite Hf, Hr. cbn.
  destruct (json_loads P text); reflexivity.
Qed.

Lemma load_cases path fs :
  exists r, load (line:=line) P path fs = Outcome r fs [].
Proof.
  unfold load, bind, read_text.
  destruct (fs !! path) as [[text|]|]; [|eauto..].
  destruct (read_error P fs path); [eauto|].
  cbn. destruct (json_loads P text); cbn; eauto.
Qed.

Lemma makedirs_run path fs :
  (forall text, fs !! path <> Some (File text)) ->
  (fs !! path = None -> makedirs_error P fs path = None) ->
  makedirs (line:=line) P path fs = Outcome (Ok tt) (<[path := Dir]> fs) [].
Proof.
  intros Hf Hm. unfold makedirs.
  destruct (fs !! path) as [[text|]|] eqn:E.
  - now destruct (Hf text).
  - now rewrite insert_id.
  - now rewrite Hm.
Qed.

Lemma makedirs_cases path fs :
  (exists err, makedirs (line:=line) P path fs = Outcome (Raise err) fs [])
  \/ makedirs (line:=line) P path fs = Outcome (Ok tt) (<[path := Dir]> fs) [].
Proof.
  unfold makedirs. destruct (fs !! path) as [[text|]|] eqn:E; eauto.
  - right. now rewrite insert_id.
  - destruct (makedirs_error P fs path); eauto.
Qed.


Lemma try_except_outcome {A} (m : M line A) (h : exn -> M line A) fs r fs' ls :
  m fs = Outcome r fs' ls ->
  try_except m h fs =
  match r with
  | Ok a => Outcome (Ok a) fs' ls
  | Raise e =>
      Outcome (result (h e fs')) (disk (h e fs')) (ls ++ printed (h e fs'))
  end.
Proof. intros E. unfold try_except. rewrite E. destruct r; reflexivity. Qed.
End Laws.

(** [pure] evaluates the Python expressions of a goal, [run] also the
    binds whose first computation is a value, an exception or a [print]. *)
Ltac pure :=
  unfold is_screenshot, get, the_str, len;
  cbn [get the_str is_screenshot res_bind len truthy negb Nat.eqb length
       from_option id result disk printed app].
Ltac run := repeat (first [rewrite bind_lift | rewrite bind_ret | rewrite bind_print]; pure); pure.

Ltac invalid :=
  left; split;
  [ cbn; rewrite ?andb_false_r; reflexivity | eexists; reflexivity ].

(** ** The browser-mcp script *)

Section BrowserMcpFacts.
Import BrowserMcp.
Variable P : platform.

Lemma mcp_body_cases i e c fs :
  match screenshot_of e with
  | Some s => body P i e c fs = save P i e (JStr s) c fs
  | None =>
      (valid_entry e = false /\ exists err, body P i e c fs = Outcome (Raise err) fs [])
      \/ body P i e c fs = bind (skip i e) (fun _ => ret c) fs
  end.
Proof.
  unfold screenshot_of, metadata_screenshot, body, valid_entry, optional_str.
  destruct e as [| | | | |?|fields]; run; try invalid.
  destruct (dict_get fields (lit "metadata")) as [[| | | | | |metadata]|];
    run; try invalid; [|now right].
  destruct (dict_get metadata (lit "screenshot")) as [v|]; run; [|now right].
  destruct v as [|[]|z|f|s|items|more]; run; try invalid; try (now right).
  - destruct (Z.eqb z 0); run; try invalid; now right.
  - destruct f; run; try invalid; now right.
  - destruct s as [|ch s]; run.
    + rewrite empty_not_image. now right.
    + destruct (startswith (ch :: s) image_prefix); run; [reflexivity|now right].
  - destruct items; run; try invalid; now right.
  - destruct more; run; try invalid; now right.
Qed.

Lemma mcp_skip_cases i e fs :
  (exists l, is_skip l = true /\ skip i e fs = Outcome (Ok tt) fs [l])
  \/ (valid_entry e = false /\ exists err, skip i e fs = Outcome (Raise err) fs []).
Proof.
  assert (forall l, is_skip l = true ->
            exists l', is_skip l' = true
                       /\ print l fs = Outcome (Ok tt) fs [l']) as Hp
    by (intros l Hl; now exists l).
  unfold skip, valid_entry.
  destruct e as [| | | | |?|fields]; run; eauto.
  destruct (dict_get fields (lit "data")) as [[| | | | | |data]|];
    run; rewrite ?andb_false_r; eauto.
  all: try (destruct (dict_get data (lit "navigated")) as [v|]; run;
            [destruct (truthy v); run|]).
  all: left; apply Hp; reflexivity.
Qed.

Lemma mcp_save_cases i e s c fs :
  (exists err, save P i e (JStr s) c fs = Outcome (Raise err) fs [])
  \/ (exists t d err,
        save P i e (JStr s) c fs =
        Outcome (Raise err) (<[filename (c + 1) t d := File []]> fs) [])
  \/ (exists t d url ts,
        save P i e (JStr s) c fs =
        Outcome (Ok (c + 1)) (<[filename (c + 1) t d := File s]> fs)
          [Screenshot (c + 1) (filename (c + 1) t d); Size (length s);
           Url url; Time ts; Blank]).
Proof.
  unfold save. destruct e as [| | | | |?|fields]; run; eauto.
  destruct (default (JStr (lit "unknown_url")) (dict_get fields (lit "url")));
    run; eauto.
  rewrite bind_open_w.
  destruct (open_error P fs _) eqn:Ho; eauto.
  rewrite bind_write.
  destruct (write_error P _ _ s) eqn:Hw.
  - right; left. eauto.
  - right; right. run. rewrite insert_insert_eq. eauto 10.
Qed.



Lemma mcp_filename_inj_count n1 t1 d1 n2 t2 d2 :
  filename n1 t1 d1 = filename n2 t2 d2 -> n1 = n2.
Proof.
  unfold filename. intros H. do 2 apply app_inv_head in H.
  apply format_02d_inj.
  apply (digit_run_inj _ _ _ _ 95%N) in H;
    auto using format_02d_digits.
  unfold is_digit. lia.
Qed.

Lemma mcp_filename_not_output_dir n t d : filename n t d <> output_dir.
Proof.
  unfold filename. intros H. apply (f_equal length) in H.
  rewrite !length_app in H.
  assert (length (lit "/screenshot_") = 12) as E by reflexivity.
  lia.
Qed.

Lemma shots_app l1 l2 : shots (l1 ++ l2) = shots l1 ++ shots l2.
Proof. apply omap_app. Qed.

Lemma shots_skip l : is_skip l = true -> shots [l] = [].
Proof. destruct l; try discriminate; reflexivity. Qed.

Lemma mcp_accounted_raise c fs items err fs1 :
  (forall p, (forall n t d, c < n -> p <> filename n t d) -> fs1 !! p = fs !! p) ->
  accounted c fs items (Outcome (Raise err) fs1 []).
Proof.
  intros Hfr. exists []. cbn.
  split_and!; [reflexivity|reflexivity|constructor|apply prefix_nil| | |].
  - discriminate.
  - exact Hfr.
  - intros n name s H. inversion H.
Qed.

Lemma mcp_loop_accounted items : forall i c fs,
  accounted c fs items (for_enumerate (body P) i items c fs).
Proof.
  induction items as [|e rest IH]; intros i c fs.
  - exists []. cbn.
    split_and!; [reflexivity|reflexivity|constructor|apply prefix_nil| | |].
    + intros c' [= <-]. split_and!; auto.
    + reflexivity.
    + intros n name s H. inversion H.
  - cbn [for_enumerate].
    pose proof (mcp_body_cases i e c fs) as Hb.
    destruct (screenshot_of e) as [s|] eqn:Hs.
    + destruct (mcp_save_cases i e s c fs)
        as [[err E]|[(t & d & err & E)|(t & d & url & ts & E)]];
        rewrite <- Hb in E; rewrite (bind_outcome _ _ _ _ _ _ E).
      * now apply mcp_accounted_raise.
      * apply mcp_accounted_raise.
        intros p Hp. apply lookup_insert_ne. intros <-. eapply Hp; [|reflexivity]. lia.
      * destruct (IH (S i) (c + 1) (<[filename (c + 1) t d := File s]> fs))
          as (outs & H1 & H2 & H3 & H4 & H5 & H6 & H7).
        exists ((c + 1, filename (c + 1) t d, s) :: outs).
        cbn [result disk printed].
        split_and!.
        -- rewrite shots_app, H1. reflexivity.
        -- cbn. rewrite H2. f_equal. f_equal. lia.
        -- cbn. constructor; eauto.
        -- cbn. rewrite Hs. cbn. apply prefix_cons. exact H4.
        -- intros c' Hc'. apply H5 in Hc' as (-> & Ho & Hf). split_and!.
           ++ cbn. lia.
           ++ cbn. rewrite Hs, Ho. reflexivity.
           ++ intros p Hp. cbn in Hp. apply not_elem_of_cons in Hp as [Hp1 Hp2].
              rewrite Hf by exact Hp2. now apply lookup_insert_ne.
        -- intros p Hp. rewrite H6.
           ++ apply lookup_insert_ne. intros <-. eapply Hp; [|reflexivity]. lia.
           ++ intros n t' d' Hn. apply Hp. lia.
        -- intros n name s' [[= -> -> ->]|Hin]%elem_of_cons.
           ++ rewrite H6; [apply lookup_insert_eq|].
              intros n t' d' Hn Heq. apply mcp_filename_inj_count in Heq. lia.
           ++ eauto.
    + destruct Hb as [[_ [err E]]|E].
      * rewrite (bind_outcome _ _ _ _ _ _ E). now apply mcp_accounted_raise.
      * destruct (mcp_skip_cases i e fs) as [(l & Hl & El)|[_ [err El]]];
          rewrite (bind_outcome _ _ _ _ _ _ El) in E;
          rewrite (bind_outcome _ _ _ _ _ _ E).
        -- destruct (IH (S i) c fs) as (outs & H1 & H2 & H3 & H4 & H5 & H6 & H7).
           exists outs. cbn [result disk printed ret app].
           change (shots (l :: ?x)) with (shots ([l] ++ x)).
           rewrite shots_app, shots_skip by exact Hl.
           assert (omap screenshot_of (e :: rest) = omap screenshot_of rest)
             as -> by (cbn; now rewrite Hs).
           split_and!; auto.
        -- now apply mcp_accounted_raise.
Qed.


Lemma mcp_summary_run n fs :
  result (summary n fs) = Ok tt
  /\ disk (summary n fs) = fs
  /\ shots (printed (summary n fs)) = []
  /\ count is_detection (printed (summary n fs)) = 0
  /\ count is_skip (printed (summary n fs)) = 0.
Proof. unfold summary. destruct (n =? 0); cbn; auto. Qed.

(** The shapes a pass over a parsed document can take. *)
Lemma mcp_extract_from_cases data fs :
  (exists err, extract_from P data fs = Outcome (Raise err) fs [])
  \/ extract_from P data fs = Outcome (Ok tt) fs [NoRecentResults]
  \/ (exists err,
        extract_from P data fs = Outcome (Raise err) (<[output_dir := Dir]> fs) [])
  \/ (exists items,
        let o := for_enumerate (body P) 0 items 0 (<[output_dir := Dir]> fs) in
        extract_from P data fs =
        match result o with
        | Ok n => Outcome (Ok tt) (disk o) (printed o ++ printed (summary n (disk o)))
        | Raise e => Outcome (Raise e) (disk o) (printed o)
        end).
Proof.
  unfold extract_from. rewrite bind_lift.
  destruct (recent_results P data) as [rr|err]; [|eauto].
  destruct (truthy rr); cbn [negb]; [|eauto].
  destruct (makedirs_cases (line:=line) P output_dir fs) as [[err E]|E];
    rewrite (bind_outcome _ _ _ _ _ _ E); [eauto|].
  cbn [result disk printed app]. rewrite bind_lift.
  destruct (iter rr) as [items|err]; [|eauto 6].
  do 3 right. exists items. cbn zeta.
  unfold bind at 1.
  destruct (result (for_enumerate (body P) 0 items 0 (<[output_dir:=Dir]> fs)))
    as [n|err] eqn:El; [|reflexivity].
  destruct (mcp_summary_run n
    (disk (for_enumerate (body P) 0 items 0 (<[output_dir:=Dir]> fs))))
    as (-> & -> & _). reflexivity.
Qed.

Lemma mcp_direct_recent_results fields entries :
  dict_get fields (lit "contents") = None ->
  dict_get fields (lit "recentResults") = Some (JArr entries) ->
  recent_results P (JObj fields) = Ok (JArr entries).
Proof.
  intros Hc Hr. unfold recent_results, has_contents, direct, py_in. cbn.
  rewrite Hc. cbn. now rewrite Hr.
Qed.

Lemma mcp_handler_run e fs :
  handler e fs =
  Outcome (Ok tt) fs
    (match e with
     | JSONDecodeError => [ErrorParsingJSON e; HintValidJSON]
     | _ => [UnexpectedError e]
     end).
Proof. destruct e; reflexivity. Qed.

Lemma mcp_attempt_loaded input text data fs :
  fs !! input = Some (File text) ->
  read_error P fs input = None ->
  json_loads P text = Ok data ->
  attempt P input fs =
  let o := extract_from P data fs in
  Outcome (result o) (disk o) (ReadingFrom input :: printed o).
Proof.
  intros Hf Hr Hj. unfold attempt.
  erewrite bind_ok;
    [|rewrite (load_run P input text fs Hf Hr), Hj; reflexivity].
  rewrite bind_print. reflexivity.
Qed.

(** The run on an input file that exists and parses. *)
Lemma mcp_run_loaded input text data fs :
  fs !! input = Some (File text) ->
  read_error P fs input = None ->
  json_loads P text = Ok data ->
  extract_screenshots P input fs =
  let o := extract_from P data fs in
  match result o with
  | Ok _ => Outcome (Ok tt) (disk o) (ReadingFrom input :: printed o)
  | Raise e =>
      Outcome (Ok tt) (disk o)
        (ReadingFrom input :: printed o ++ printed (handler e (disk o)))
  end.
Proof.
  intros Hf Hr Hj. unfold extract_screenshots.
  rewrite bind_path_exists, Hf.
  rewrite bool_decide_true by eauto. cbn [negb].
  unfold try_except. rewrite (mcp_attempt_loaded input text data fs Hf Hr Hj).
  cbn zeta. generalize (extract_from P data fs).
  intros [[[]|e] d ls]; cbn [result disk printed]; [reflexivity|].
  rewrite mcp_handler_run. reflexivity.
Qed.

Lemma mcp_loop_output_dir items i c fs :
  disk (for_enumerate (body P) i items c fs) !! output_dir = fs !! output_dir.
Proof.
  destruct (mcp_loop_accounted items i c fs) as (outs & _ & _ & _ & _ & _ & H & _).
  apply H. intros n t d _ E. symmetry in E. now apply mcp_filename_not_output_dir in E.
Qed.

(** The pass over a non-empty list of entries, once the directory is
    there. *)
Lemma mcp_extract_from_items data x l fs :
  recent_results P data = Ok (JArr (x :: l)) ->
  (forall text, fs !! output_dir <> Some (File text)) ->
  (fs !! output_dir = None -> makedirs_error P fs output_dir = None) ->
  extract_from P data fs =
  let o := for_enumerate (body P) 0 (x :: l) 0 (<[output_dir := Dir]> fs) in
  match result o with
  | Ok n => Outcome (Ok tt) (disk o) (printed o ++ printed (summary n (disk o)))
  | Raise e => Outcome (Raise e) (disk o) (printed o)
  end.
Proof.
  intros Hrr Hf Hm. unfold extract_from. rewrite bind_lift, Hrr.
  cbn [truthy length Nat.eqb negb].
  rewrite (bind_ok _ _ _ _ _ _ (makedirs_run P output_dir fs Hf Hm)).
  cbn [result disk printed app]. rewrite bind_lift. cbn [iter]. cbn zeta.
  unfold bind at 1.
  generalize (for_enumerate (body P) 0 (x :: l) 0 (<[output_dir:=Dir]> fs)).
  intros [[n|e] d ls]; cbn [result disk printed]; [|reflexivity].
  destruct (mcp_summary_run n d) as (-> & -> & _). reflexivity.
Qed.

Lemma mcp_run_disk input text data x l fs :
  fs !! input = Some (File text) ->
  read_error P fs input = None ->
  json_loads P text = Ok data ->
  recent_results P data = Ok (JArr (x :: l)) ->
  (forall t, fs !! output_dir <> Some (File t)) ->
  (fs !! output_dir = None -> makedirs_error P fs output_dir = None) ->
  disk (extract_screenshots P input fs) =
  disk (for_enumerate (body P) 0 (x :: l) 0 (<[output_dir := Dir]> fs)).
Proof.
  intros Hf Hr Hj Hrr Hd Hm.
  rewrite (mcp_run_loaded input text data fs Hf Hr Hj). cbn zeta.
  rewrite (mcp_extract_from_items data x l fs Hrr Hd Hm). cbn zeta.
  generalize (for_enumerate (body P) 0 (x :: l) 0 (<[output_dir:=Dir]> fs)).
  intros [[n|e] d ls]; reflexivity.
Qed.

(** Every run either prints no confirmation line or is, for its
    confirmation lines and its disk, one pass of the loop. *)
Lemma mcp_run_cases input fs :
  (shots (printed (extract_screenshots P input fs)) = []
   /\ (disk (extract_screenshots P input fs) = fs
       \/ disk (extract_screenshots P input fs) = <[output_dir := Dir]> fs))
  \/ exists items,
       let o := for_enumerate (body P) 0 items 0 (<[output_dir := Dir]> fs) in
       shots (printed (extract_screenshots P input fs)) = shots (printed o)
       /\ disk (extract_screenshots P input fs) = disk o.
Proof.
  unfold extract_screenshots. rewrite bind_path_exists.
  destruct (bool_decide (is_Some (fs !! input))); cbn [negb]; [|left; auto].
  unfold try_except, attempt.
  destruct (load_cases (line:=line) P input fs) as [r El].
  destruct r as [data|err].
  - rewrite (bind_ok _ _ _ _ _ _ El). rewrite bind_print.
    cbn [result disk printed app].
    destruct (mcp_extract_from_cases data fs)
      as [[err E]|[E|[[err E]|[items E]]]].
    + rewrite E. cbn [result disk printed]. rewrite mcp_handler_run.
      left. split; [destruct err; reflexivity|auto].
    + rewrite E. left. auto.
    + rewrite E. cbn [result disk printed]. rewrite mcp_handler_run.
      left. split; [destruct err; reflexivity|auto].
    + right. exists items. cbn zeta in *. rewrite E.
      generalize (for_enumerate (body P) 0 items 0 (<[output_dir:=Dir]> fs)).
      intros [[n|err] d ls]; cbn [result disk printed].
      * destruct (mcp_summary_run n d) as (_ & Hd & Hs & _).
        change (ReadingFrom input :: ?x) with ([ReadingFrom input] ++ x).
        rewrite !shots_app, Hs, app_nil_r. auto.
      * rewrite mcp_handler_run. cbn [result disk printed].
        change (ReadingFrom input :: ?x) with ([ReadingFrom input] ++ x).
        rewrite !shots_app. split; [|reflexivity].
        destruct err; cbn; now rewrite app_nil_r.
  - rewrite (bind_raise _ _ _ _ _ _ El). cbn [result disk printed].
    rewrite mcp_handler_run. left. split; [destruct err; reflexivity|auto].
Qed.

Lemma mcp_names_distinct (outs : list (nat * str)) c :
  outs.*1 = seq c (length outs) ->
  Forall (fun ns : nat * str => exists t d, ns.2 = filename ns.1 t d) outs ->
  NoDup outs.*2.
Proof.
  revert c. induction outs as [|[n name] outs IH]; intros c Hseq Hemb; cbn.
  - constructor.
  - cbn in Hseq. injection Hseq as -> Hseq.
    apply Forall_cons in Hemb as [(t & d & Hn) Hemb]. cbn in Hn.
    constructor; [|eapply IH; eauto].
    intros ([m name'] & E & Hin)%list_elem_of_fmap. cbn in E. subst name'.
    assert (m ∈ outs.*1) as Hm
      by (apply list_elem_of_fmap; exists (m, name); auto).
    rewrite Hseq in Hm. apply elem_of_seq in Hm.
    rewrite Forall_forall in Hemb. destruct (Hemb _ Hin) as (t' & d' & E).
    cbn in E. rewrite Hn in E. apply mcp_filename_inj_count in E. lia.
Qed.
End BrowserMcpFacts.

(** ** The first script *)

Section RootFacts.
Import Root.
Variable P : platform.

Lemma root_body_cases i e c fs :
  match screenshot_of e with
  | Some s =>
      exists fields, e = JObj fields /\
      body P i e c fs =
      save P i
        (default (JStr (lit "result_" ++ decimal i)) (dict_get fields (lit "id")))
        (default (JStr (lit "unknown_url")) (dict_get fields (lit "url")))
        (default (JStr []) (dict_get fields (lit "timestamp")))
        (JStr s) c fs
  | None =>
      (valid_entry e = false /\ exists err, body P i e c fs = Outcome (Raise err) fs [])
      \/ body P i e c fs = Outcome (Ok c) fs []
  end.
Proof.
  unfold screenshot_of, metadata_screenshot, body, valid_entry, optional_str.
  destruct e as [| | | | |?|fields]; run; try invalid.
  destruct (dict_get fields (lit "metadata")) as [[| | | | | |metadata]|];
    run; try invalid; [|now right].
  destruct (dict_get metadata (lit "screenshot")) as [v|]; run; [|now right].
  destruct v as [|[]|z|f|s|items|more]; run; try invalid; try (now right).
  - destruct (Z.eqb z 0); run; try invalid; now right.
  - destruct f; run; try invalid; now right.
  - destruct s as [|ch s]; run.
    + rewrite empty_not_image. now right.
    + destruct (startswith (ch :: s) image_prefix); run; [eauto|now right].
  - destruct items; run; try invalid; now right.
  - destruct more; run; try invalid; now right.
Qed.

(** What the entry with the screenshot [s] leaves behind: the name
    derivation may raise; otherwise the write is attempted at the derived
    path and answered by one of the two per-file reports. *)
Lemma root_body_shot i e s c fs :
  screenshot_of e = Some s ->
  match filename_of P i e with
  | Raise err => body P i e c fs = Outcome (Raise err) fs []
  | Ok name =>
      let path := path_join output_dir name in
      match open_error P fs path with
      | Some err => body P i e c fs = Outcome (Ok (c + 1)) fs [ErrorWriting name err]
      | None =>
          match write_error P (<[path := File []]> fs) path s with
          | Some err =>
              body P i e c fs =
              Outcome (Ok (c + 1)) (<[path := File []]> fs) [ErrorWriting name err]
          | None =>
              exists url,
              body P i e c fs =
              Outcome (Ok (c + 1)) (<[path := File s]> fs)
                [Extracted (c + 1) name; Url url; DataLength (length s); Blank]
          end
      end
  end.
Proof.
  intros Hs. pose proof (root_body_cases i e c fs) as Hb. rewrite Hs in Hb.
  cbv beta iota in Hb. destruct Hb as (fields & -> & Hb). rewrite Hb.
  unfold save, filename_of. pure. cbn [res_bind].
  destruct (default (JStr (lit "unknown_url")) (dict_get fields (lit "url")))
    as [| | | |url_text| |]; run; cbn [res_bind]; try reflexivity.
  destruct (timestamp_str (default (JStr []) (dict_get fields (lit "timestamp"))) i)
    as [ts|err]; cbn [res_bind]; [|reflexivity].
  cbn zeta.
  set (name := filename P ts (clean_url url_text) _).
  set (path := path_join output_dir name).
  destruct (open_error P fs path) as [err|] eqn:Ho.
  - erewrite bind_ok; cycle 1.
    { erewrite try_except_raise by (now rewrite bind_open_w, Ho).
      reflexivity. }
    reflexivity.
  - destruct (write_error P (<[path:=File []]> fs) path s) as [err|] eqn:Hw.
    + erewrite bind_ok; cycle 1.
      { erewrite try_except_raise
          by (now rewrite bind_open_w, Ho, bind_write, Hw).
        reflexivity. }
      reflexivity.
    + eexists. erewrite bind_ok; cycle 1.
      { apply try_except_ok.
        rewrite bind_open_w, Ho, bind_write, Hw, insert_insert_eq.
        reflexivity. }
      reflexivity.
Qed.


(** Every entry leaves the disk as it was or with one more regular file,
    at a path under the name the script derived. *)
Lemma root_body_disk i e c fs :
  disk (body P i e c fs) = fs
  \/ exists name s,
       filename_of P i e = Ok name
       /\ disk (body P i e c fs) = <[path_join output_dir name := File s]> fs
       /\ (s = [] \/ screenshot_of e = Some s).
Proof.
  pose proof (root_body_cases i e c fs) as Hb.
  destruct (screenshot_of e) as [s|] eqn:Hs.
  - clear Hb. pose proof (root_body_shot i e s c fs Hs) as Hb.
    destruct (filename_of P i e) as [name|err]; [|rewrite Hb; now left].
    cbn zeta in Hb.
    destruct (open_error P fs _); [rewrite Hb; now left|].
    destruct (write_error P _ _ s).
    + rewrite Hb. right. exists name, []. auto.
    + destruct Hb as [url ->]. right. exists name, s. auto.
  - destruct Hb as [[_ [err ->]]| ->]; now left.
Qed.

Lemma root_path_not_output_dir name : path_join output_dir name <> output_dir.
Proof.
  unfold path_join.
  destruct (startswith name (lit "/")) eqn:E.
  - intros ->. vm_compute in E. discriminate.
  - intros H. apply (f_equal length) in H. rewrite !length_app in H.
    assert (length (lit "/") = 1) by reflexivity. lia.
Qed.

Lemma root_loop_frame items : forall i c fs p,
  (forall name, p <> path_join output_dir name) ->
  disk (for_enumerate (body P) i items c fs) !! p = fs !! p.
Proof.
  induction items as [|e rest IH]; intros i c fs p Hp; [reflexivity|].
  cbn [for_enumerate]. unfold bind.
  assert (disk (body P i e c fs) !! p = fs !! p) as Hd.
  { destruct (root_body_disk i e c fs) as [->|(name & s & _ & -> & _)];
      [reflexivity|]. apply lookup_insert_ne. intros <-. now apply (Hp name). }
  destruct (body P i e c fs) as [[c'|err] fs1 ls]; cbn in *; [|exact Hd].
  rewrite IH by exact Hp. exact Hd.
Qed.




Lemma root_summary_run n fs :
  result (summary n fs) = Ok tt
  /\ disk (summary n fs) = fs
  /\ count per_entry (printed (summary n fs)) = 0.
Proof. unfold summary. destruct (n =? 0); cbn; auto. Qed.


(** The run on an input file that exists and parses. *)
Lemma root_run_loaded input text data fs :
  fs !! input = Some (File text) ->
  read_error P fs input = None ->
  json_loads P text = Ok data ->
  extract_screenshots P input fs =
  let o := extract_from P data fs in
  Outcome (result o) (disk o) (Banner :: Rule :: ReadingFrom input :: printed o).
Proof.
  intros Hf Hr Hj. unfold extract_screenshots.
  rewrite !bind_print, bind_path_exists, Hf.
  rewrite bool_decide_true by eauto. cbn [negb].
  rewrite bind_print.
  erewrite bind_ok; cycle 1.
  { unfold read_document. apply try_except_ok.
    erewrite bind_ok; [|rewrite (load_run P input text fs Hf Hr), Hj; reflexivity].
    reflexivity. }
  reflexivity.
Qed.

(** The pass over a non-empty list of entries, once the directory is
    there. *)
Lemma root_extract_from_items fields x l fs :
  dict_get fields (lit "recentResults") = Some (JArr (x :: l)) ->
  (forall text, fs !! output_dir <> Some (File text)) ->
  (fs !! output_dir = None -> makedirs_error P fs output_dir = None) ->
  extract_from P (JObj fields) fs =
  let o := for_enumerate (body P) 0 (x :: l) 0 (<[output_dir := Dir]> fs) in
  match result o with
  | Ok n =>
      Outcome (Ok tt) (disk o)
        (Found (S (length l)) :: printed o ++ printed (summary n (disk o)))
  | Raise e => Outcome (Raise e) (disk o) (Found (S (length l)) :: printed o)
  end.
Proof.
  intros Hrr Hf Hm. unfold extract_from. run. rewrite Hrr. cbn [from_option id].
  run. rewrite bind_lift. cbn [len]. rewrite bind_print.
  rewrite (bind_ok _ _ _ _ _ _ (makedirs_run P output_dir fs Hf Hm)).
  cbn [result disk printed app]. rewrite bind_lift. cbn [iter]. cbn zeta.
  unfold bind at 1 2 3.
  generalize (for_enumerate (body P) 0 (x :: l) 0 (<[output_dir:=Dir]> fs)).
  intros [[n|e] d ls]; cbn [result disk printed]; [|reflexivity].
  destruct (root_summary_run n d) as (-> & -> & _). reflexivity.
Qed.

Lemma root_run_disk input text fields x l fs :
  fs !! input = Some (File text) ->
  read_error P fs input = None ->
  json_loads P text = Ok (JObj fields) ->
  dict_get fields (lit "recentResults") = Some (JArr (x :: l)) ->
  (forall t, fs !! output_dir <> Some (File t)) ->
  (fs !! output_dir = None -> makedirs_error P fs output_dir = None) ->
  disk (extract_screenshots P input fs) =
  disk (for_enumerate (body P) 0 (x :: l) 0 (<[output_dir := Dir]> fs)).
Proof.
  intros Hf Hr Hj Hrr Hd Hm.
  rewrite (root_run_loaded input text (JObj fields) fs Hf Hr Hj). cbn zeta.
  rewrite (root_extract_from_items fields x l fs Hrr Hd Hm). cbn zeta.
  generalize (for_enumerate (body P) 0 (x :: l) 0 (<[output_dir:=Dir]> fs)).
  intros [[n|e] d ls]; reflexivity.
Qed.
End RootFacts.

(** ** The claims *)

(** The scenario that closes section 8 of the specification: one entry
    with a screenshot gives one file under [extracted_screenshots] with
    exactly the payload, and a summary that counts one. *)
Example scenario_root :
  let doc := Fixture.direct_doc [Fixture.entry_a] in
  let P := Fixture.python [doc] Fixture.times [] in
  let o := Root.extract_screenshots P Fixture.input (Fixture.cwd doc) in
  result o = Ok tt
  /\ disk o =
     <[lit "extracted_screenshots/2024-01-01_00-00-00Z_x.com_p_a.txt"
         := File (lit "data:image/png;base64,AAAA")]>
       (<[output_dir := Dir]> (Fixture.cwd doc))
  /\ Root.Success 1 output_dir ∈ printed o.
Proof. cbn zeta. split_and!; [reflexivity|reflexivity|]. vm_compute. set_solver. Qed.

Example scenario_mcp :
  let doc := Fixture.direct_doc [Fixture.entry_a] in
  let P := Fixture.python [doc] Fixture.times [] in
  let o := BrowserMcp.extract_screenshots P Fixture.input (Fixture.cwd doc) in
  result o = Ok tt
  /\ disk o =
     <[lit "extracted_screenshots/screenshot_01_20240101_000000_x.com.txt"
         := File (lit "data:image/png;base64,AAAA")]>
       (<[output_dir := Dir]> (Fixture.cwd doc))
  /\ BrowserMcp.Success 1 output_dir ∈ printed o.
Proof. cbn zeta. split_and!; [reflexivity|reflexivity|]. vm_compute. set_solver. Qed.

Lemma screenshot_of_None e :
  (forall rest, metadata_screenshot e <> Some (JStr (image_prefix ++ rest))) ->
  screenshot_of e = None.
Proof.
  intros H. unfold screenshot_of.
  destruct (metadata_screenshot e) as [[| | | |s| |]|]; try reflexivity.
  destruct (startswith s image_prefix) eqn:E; [|reflexivity].
  apply startswith_spec in E as [rest ->]. now destruct (H rest).
Qed.



(** C8: when the normalized [recentResults] is absent (the default, the
    empty list, stands in) or empty, the run prints the no-results line,
    writes nothing and returns normally. Both scripts; the first
    normalizes by reading the key at the top level, the second by
    [recent_results]. What the scripts test is the truth value, so the
    same holds for every falsy value under the key. *)
Theorem empty_results_are_reported (P : platform) (input text : str)
    (data : json) (fs : gmap str node) :
  fs !! input = Some (File text) ->
  read_error P fs input = None ->
  json_loads P text = Ok data ->
  (forall v,
     get data (lit "recentResults") (JArr []) = Ok v -> truthy v = false ->
     Root.extract_screenshots P input fs =
     Outcome (Ok tt) fs
       [Root.Banner; Root.Rule; Root.ReadingFrom input; Root.NoRecentResults])
  /\ (forall v,
        BrowserMcp.recent_results P data = Ok v -> truthy v = false ->
        BrowserMcp.extract_screenshots P input fs =
        Outcome (Ok tt) fs
          [BrowserMcp.ReadingFrom input; BrowserMcp.NoRecentResults]).
Proof.
  intros Hf Hr Hj. split; intros v He Hv.
  - rewrite (root_run_loaded P input text data fs Hf Hr Hj).
    unfold Root.extract_from. rewrite bind_lift, He, Hv. reflexivity.
  - rewrite (mcp_run_loaded P input text data fs Hf Hr Hj).
    unfold BrowserMcp.extract_from. rewrite bind_lift, He, Hv. reflexivity.
Qed.

Lemma empty_results_are_reported_witness :
  let doc := Fixture.direct_doc [] in
  let P := Fixture.python [doc] Fixture.times [] in
  Root.extract_screenshots P Fixture.input (Fixture.cwd doc) =
    Outcome (Ok tt) (Fixture.cwd doc)
      [Root.Banner; Root.Rule; Root.ReadingFrom Fixture.input;
       Root.NoRecentResults]
  /\ BrowserMcp.extract_screenshots P Fixture.input (Fixture.cwd doc) =
    Outcome (Ok tt) (Fixture.cwd doc)
      [BrowserMcp.ReadingFrom Fixture.input; BrowserMcp.NoRecentResults].
Proof.
  intros doc P.
  destruct (empty_results_are_reported P Fixture.input (Fixture.dumps doc) doc
              (Fixture.cwd doc)) as [HA HB];
    [reflexivity | reflexivity | reflexivity |].
  split; [apply (HA (JArr [])) | apply (HB (JArr []))]; reflexivity.
Defined.

(** C5: an entry whose [metadata.screenshot] is not a string that begins
    with [data:image/] is skipped: it writes no file, prints no
    confirmation line and leaves the counter alone, in both scripts. The
    test is for a prefix: what decides is whether the value is
    [image_prefix ++ rest] for some [rest]. *)
Theorem entry_without_prefix_is_skipped (P : platform) (i : nat) (e : json)
    (c : nat) (fs : gmap str node) :
  (forall rest, metadata_screenshot e <> Some (JStr (image_prefix ++ rest))) ->
  (disk (Root.body P i e c fs) = fs
   /\ printed (Root.body P i e c fs) = []
   /\ forall c', result (Root.body P i e c fs) = Ok c' -> c' = c)
  /\ (disk (BrowserMcp.body P i e c fs) = fs
      /\ count BrowserMcp.is_detection (printed (BrowserMcp.body P i e c fs)) = 0
      /\ forall c', result (BrowserMcp.body P i e c fs) = Ok c' -> c' = c)
  /\ (valid_entry e = true ->
      Root.body P i e c fs = Outcome (Ok c) fs []
      /\ exists l, BrowserMcp.is_skip l = true
                   /\ BrowserMcp.body P i e c fs = Outcome (Ok c) fs [l]).
Proof.
  intros H%screenshot_of_None.
  pose proof (root_body_cases P i e c fs) as HA.
  pose proof (mcp_body_cases P i e c fs) as HB.
  rewrite H in HA, HB.
  split_and!.
  - destruct HA as [[_ [err ->]]| ->]; reflexivity.
  - destruct HA as [[_ [err ->]]| ->]; reflexivity.
  - destruct HA as [[_ [err ->]]| ->]; cbn; congruence.
  - destruct HB as [[_ [err ->]]| ->]; [reflexivity|].
    destruct (mcp_skip_cases i e fs) as [(l & _ & E)|[_ [err E]]];
      unfold bind; rewrite E; reflexivity.
  - destruct HB as [[_ [err ->]]| ->]; [reflexivity|].
    destruct (mcp_skip_cases i e fs) as [(l & Hl & E)|[_ [err E]]];
      unfold bind; rewrite E; cbn; [|reflexivity].
    destruct l; try discriminate; reflexivity.
  - destruct HB as [[_ [err ->]]| ->]; [discriminate|].
    destruct (mcp_skip_cases i e fs) as [(l & _ & E)|[_ [err E]]];
      unfold bind; rewrite E; cbn; congruence.
  - intros Hv. split.
    + destruct HA as [[Hn _]| ->]; [congruence|reflexivity].
    + destruct HB as [[Hn _]| ->]; [congruence|].
      destruct (mcp_skip_cases i e fs) as [(l & Hl & E)|[Hn _]]; [|congruence].
      exists l. split; [exact Hl|]. unfold bind. rewrite E. reflexivity.
Qed.

Lemma entry_without_prefix_is_skipped_witness :
  let P := Fixture.python [] Fixture.times [] in
  let e := Fixture.entry_loose in
  (forall rest, metadata_screenshot e <> Some (JStr (image_prefix ++ rest)))
  /\ valid_entry e = true
  /\ Root.body P 0 e 0 ∅ = Outcome (Ok 0) ∅ []
  /\ BrowserMcp.body P 0 e 0 ∅ = Outcome (Ok 0) ∅ [BrowserMcp.NoScreenshotData 1].
Proof.
  intros P e.
  assert (forall rest, metadata_screenshot e <> Some (JStr (image_prefix ++ rest)))
    as H by (intros rest E; vm_compute in E; discriminate).
  destruct (entry_without_prefix_is_skipped P 0 e 0 ∅ H) as (_ & _ & Hv).
  split; [exact H|]. split; [reflexivity|].
  destruct (Hv eq_refl) as [HA _].
  split; [exact HA | reflexivity].
Defined.




(** C10: when the normalized [recentResults] is a non-empty list and the
    directory can be made, it is made before the first entry is looked at:
    the loop starts on a disk that has it, and it is there when the run
    ends, whatever the entries are and however the loop ends. Both
    scripts. *)
Theorem output_dir_is_created (P : platform) (input text : str) (data x : json)
    (l : list json) (fs : gmap str node) :
  fs !! input = Some (File text) ->
  read_error P fs input = None ->
  json_loads P text = Ok data ->
  (forall t, fs !! output_dir <> Some (File t)) ->
  (fs !! output_dir = None -> makedirs_error P fs output_dir = None) ->
  (get data (lit "recentResults") (JArr []) = Ok (JArr (x :: l)) ->
   let o := Root.extract_screenshots P input fs in
   disk o !! output_dir = Some Dir
   /\ disk o =
      disk (for_enumerate (Root.body P) 0 (x :: l) 0 (<[output_dir := Dir]> fs)))
  /\ (BrowserMcp.recent_results P data = Ok (JArr (x :: l)) ->
      let o := BrowserMcp.extract_screenshots P input fs in
      disk o !! output_dir = Some Dir
      /\ disk o =
         disk (for_enumerate (BrowserMcp.body P) 0 (x :: l) 0
                 (<[output_dir := Dir]> fs))).
Proof.
  intros Hf Hr Hj Hd Hm. split; intros Hrr; cbn zeta.
  - destruct data as [| | | | |?|fields]; try discriminate.
    cbn in Hrr.
    destruct (dict_get fields (lit "recentResults")) as [v|] eqn:Hg;
      cbn in Hrr; [|discriminate]. injection Hrr as ->.
    rewrite (root_run_disk P input text fields x l fs Hf Hr Hj Hg Hd Hm).
    split; [|reflexivity].
    rewrite root_loop_frame by (intros name E; symmetry in E;
                                now apply root_path_not_output_dir in E).
    apply lookup_insert_eq.
  - rewrite (mcp_run_disk P input text data x l fs Hf Hr Hj Hrr Hd Hm).
    split; [|reflexivity].
    rewrite mcp_loop_output_dir. apply lookup_insert_eq.
Qed.

Lemma output_dir_is_created_witness :
  let doc := Fixture.direct_doc [Fixture.entry_nav; Fixture.entry_loose] in
  let P := Fixture.python [doc] Fixture.times [] in
  Fixture.cwd doc !! output_dir = None
  /\ disk (Root.extract_screenshots P Fixture.input (Fixture.cwd doc))
       !! output_dir = Some Dir
  /\ disk (BrowserMcp.extract_screenshots P Fixture.input (Fixture.cwd doc))
       !! output_dir = Some Dir.
Proof.
  intros doc P.
  destruct (output_dir_is_created P Fixture.input (Fixture.dumps doc) doc
              Fixture.entry_nav [Fixture.entry_loose] (Fixture.cwd doc))
    as [HA HB]; try reflexivity.
  - intros t E. vm_compute in E. discriminate.
  - split; [reflexivity|]. split; [apply HA | apply HB]; reflexivity.
Defined.




(** C2, as the code has it: the browser-mcp script reads from a wrapped
    document the [recentResults] that the direct path reads from the
    decoded inner value, and the pass over the wrapped document is the
    pass over the inner one when that is in the direct shape. The first
    script does not unwrap: a wrapped document without a top-level
    [recentResults] is an empty one to it. *)
Theorem wrapped_document_is_unwrapped (P : platform)
    (fields first : list (str * json)) (rest : list json) (text : str)
    (inner : json) :
  dict_get fields (lit "contents") = Some (JArr (JObj first :: rest)) ->
  dict_get first (lit "text") = Some (JStr text) ->
  json_loads P text = Ok inner ->
  BrowserMcp.recent_results P (JObj fields) = BrowserMcp.direct inner
  /\ (forall inner_fields fs,
        inner = JObj inner_fields ->
        dict_get inner_fields (lit "contents") = None ->
        BrowserMcp.extract_from P (JObj fields) fs
        = BrowserMcp.extract_from P inner fs)
  /\ (forall fs,
        dict_get fields (lit "recentResults") = None ->
        Root.extract_from P (JObj fields) fs
        = Outcome (Ok tt) fs [Root.NoRecentResults]).
Proof.
  intros Hc Ht Hj.
  assert (BrowserMcp.recent_results P (JObj fields) = BrowserMcp.direct inner) as E.
  { unfold BrowserMcp.recent_results, BrowserMcp.has_contents, py_in,
      subscript_key, BrowserMcp.loads.
    cbn [res_bind]. rewrite Hc.
    rewrite bool_decide_true by eauto. cbn. rewrite Ht. cbn. rewrite Hj.
    reflexivity. }
  split_and!.
  - exact E.
  - intros inner_fields fs -> Hn. unfold BrowserMcp.extract_from.
    rewrite E. f_equal. f_equal.
    unfold BrowserMcp.recent_results, BrowserMcp.has_contents, py_in.
    cbn [res_bind]. rewrite Hn. reflexivity.
  - intros fs Hn. unfold Root.extract_from. rewrite bind_lift.
    cbn [get]. rewrite Hn. reflexivity.
Qed.

Lemma wrapped_document_is_unwrapped_witness :
  let inner := Fixture.direct_doc [Fixture.entry_a] in
  let P := Fixture.python [inner] Fixture.times [] in
  BrowserMcp.recent_results P (Fixture.wrapped_doc inner)
  = Ok (JArr [Fixture.entry_a])
  /\ BrowserMcp.extract_from P (Fixture.wrapped_doc inner) ∅
     = BrowserMcp.extract_from P inner ∅.
Proof.
  intros inner P.
  destruct (wrapped_document_is_unwrapped P
              [(lit "contents", JArr [JObj [(lit "text", JStr (Fixture.dumps inner))]])]
              [(lit "text", JStr (Fixture.dumps inner))] []
              (Fixture.dumps inner) inner)
    as (H1 & H2 & _); try reflexivity.
  split; [exact H1|].
  apply (H2 [(lit "recentResults", JArr [Fixture.entry_a])] ∅); reflexivity.
Defined.

(** C2 fails on the first script: it finds no results in a wrapped
    document whose inner value holds one, and writes nothing, while the
    run on the inner document writes the screenshot. *)
Lemma root_does_not_unwrap :
  let inner := Fixture.direct_doc [Fixture.entry_a] in
  let wrapped := Fixture.wrapped_doc inner in
  let P := Fixture.python [wrapped; inner] Fixture.times [] in
  let target := lit "extracted_screenshots/2024-01-01_00-00-00Z_x.com_p_a.txt" in
  get wrapped (lit "recentResults") (JArr []) <> BrowserMcp.direct inner
  /\ printed (Root.extract_screenshots P Fixture.input (Fixture.cwd wrapped))
     = [Root.Banner; Root.Rule; Root.ReadingFrom Fixture.input;
        Root.NoRecentResults]
  /\ disk (Root.extract_screenshots P Fixture.input (Fixture.cwd wrapped))
       !! target = None
  /\ disk (Root.extract_screenshots P Fixture.input (Fixture.cwd inner))
       !! target = Some (File Fixture.screenshot_a).
Proof.
  cbn zeta. split_and!; try reflexivity.
  intros E. vm_compute in E. discriminate.
Qed.

(** C9: in the browser-mcp script the confirmed files of a run carry the
    counters 1, 2, 3, ... in order, every file name embeds its counter, so
    the names are pairwise distinct, and every confirmed file is still on
    disk when the run ends; for the pass itself, [accounted] adds that each
    of them still holds the payload of its own entry. *)
Theorem mcp_filenames_are_distinct (P : platform) (input : str)
    (fs : gmap str node) :
  let o := BrowserMcp.extract_screenshots P input fs in
  let names := BrowserMcp.shots (printed o) in
  names.*1 = seq 1 (length names)
  /\ Forall (fun ns : nat * str =>
               exists t d, ns.2 = BrowserMcp.filename ns.1 t d) names
  /\ NoDup names.*2
  /\ (forall n name, (n, name) ∈ names ->
        exists s, disk o !! name = Some (File s))
  /\ (forall i items fs',
        BrowserMcp.accounted 0 fs' items
          (for_enumerate (BrowserMcp.body P) i items 0 fs')).
Proof.
  cbn zeta.
  assert (forall i items fs',
            BrowserMcp.accounted 0 fs' items
              (for_enumerate (BrowserMcp.body P) i items 0 fs')) as Hacc
    by (intros; apply mcp_loop_accounted).
  destruct (mcp_run_cases P input fs) as [[-> _]|(items & Hs & Hd)].
  - split_and!; [reflexivity|constructor|constructor| |exact Hacc].
    intros n name H. inversion H.
  - cbn zeta in Hs, Hd. rewrite Hs, Hd.
    destruct (Hacc 0 items (<[output_dir:=Dir]> fs))
      as (outs & H1 & H2 & H3 & _ & _ & _ & H7).
    rewrite H1. split_and!.
    + rewrite H2, !length_fmap. reflexivity.
    + exact H3.
    + eapply mcp_names_distinct; [|exact H3]. rewrite length_fmap. exact H2.
    + intros n name ([[n' name'] s] & [= <- <-] & Hin)%list_elem_of_fmap.
      exists s. eapply H7. exact Hin.
    + exact Hacc.
Qed.

Lemma mcp_filenames_are_distinct_witness :
  let doc := Fixture.direct_doc [Fixture.entry_a; Fixture.entry_nav; Fixture.entry_b] in
  let P := Fixture.python [doc] Fixture.times [] in
  let o := BrowserMcp.extract_screenshots P Fixture.input (Fixture.cwd doc) in
  BrowserMcp.shots (printed o) =
    [(1, lit "extracted_screenshots/screenshot_01_20240101_000000_x.com.txt");
     (2, lit "extracted_screenshots/screenshot_02_20240101_000005_y.org.txt")]
  /\ NoDup (BrowserMcp.shots (printed o)).*2.
Proof.
  intros doc P o. split; [reflexivity|].
  apply (mcp_filenames_are_distinct P Fixture.input (Fixture.cwd doc)).
Defined.








(** * Further properties of the two scripts *)


(** * Further properties of the two scripts *)

(** ** The two [main] functions *)

(** X1: with an argument count other than one, the first script's [main]
    prints its nine usage lines and leaves through [sys.exit(1)]: the
    process exits with status 1, and nothing is read, made or written. *)
Theorem root_main_wrong_argument_count (P : platform) (argv : list str)
    (fs : gmap str node) :
  length argv <> 2 ->
  Root.main P argv fs =
    Outcome (Ok (Exited 1)) fs
      (inl <$> [Root.Usage; Root.UsageBlank; Root.ExampleHeading;
                Root.ExampleCommand; Root.UsageBlank; Root.HowToHeading;
                Root.HowToStep1; Root.HowToStep2; Root.HowToStep3])
  /\ exit_status (Root.main P argv fs) = 1.
Proof.
  intros H. unfold Root.main, exit_status.
  destruct (Nat.eqb_spec (length argv) 2) as [E|_]; [contradiction|].
  split; reflexivity.
Qed.

Lemma root_main_wrong_argument_count_witness :
  let P := Fixture.python [] Fixture.times [] in
  exit_status (Root.main P [lit "extract-screenshots.py"] ∅) = 1.
Proof.
  apply (root_main_wrong_argument_count
           (Fixture.python [] Fixture.times []) [lit "extract-screenshots.py"] ∅).
  cbn. lia.
Defined.





(** ** Inputs that cannot be loaded *)

Lemma load_failure_run {line : Type} (P : platform) path e fs :
  load_failure P fs path = Some e ->
  load (line:=line) P path fs = Outcome (Raise e) fs [].
Proof.
  unfold load_failure, load, bind, read_text.
  destruct (fs !! path) as [[text|]|]; cbn; try (now intros [= ->]).
  destruct (read_error P fs path); cbn; [now intros [= ->]|].
  destruct (json_loads P text); cbn; [discriminate|now intros [= ->]].
Qed.

(** X4: an input that exists but cannot be loaded (a directory, a refused
    read, a text [json.loads] rejects) is reported and nothing else
    happens: both scripts return normally with the disk as it was. The
    first script names a JSON decode error as invalid JSON and anything
    else as an error reading the file; the browser-mcp script uses its
    parse-error lines and its unexpected-error line, and has not yet
    printed its reading-from line. *)
Theorem unloadable_input_is_reported (P : platform) (input : str) (e : exn)
    (fs : gmap str node) :
  is_Some (fs !! input) ->
  load_failure P fs input = Some e ->
  Root.extract_screenshots P input fs =
    Outcome (Ok tt) fs
      [Root.Banner; Root.Rule; Root.ReadingFrom input;
       match e with
       | JSONDecodeError => Root.InvalidJSON e
       | _ => Root.ErrorReadingFile e
       end]
  /\ BrowserMcp.extract_screenshots P input fs =
    Outcome (Ok tt) fs
      match e with
      | JSONDecodeError =>
          [BrowserMcp.ErrorParsingJSON e; BrowserMcp.HintValidJSON]
      | _ => [BrowserMcp.UnexpectedError e]
      end.
Proof.
  intros Hin Hl. split.
  - unfold Root.extract_screenshots.
    rewrite !bind_print, bind_path_exists, bool_decide_true by exact Hin.
    cbn [negb]. rewrite bind_print.
    assert (Root.read_document P input fs =
            Outcome (Ok None) fs
              [match e with
               | JSONDecodeError => Root.InvalidJSON e
               | _ => Root.ErrorReadingFile e
               end]) as Hd.
    { unfold Root.read_document.
      rewrite (try_except_raise _ _ _ _ _ _
                 (bind_raise _ _ _ _ _ _ (load_failure_run P input e fs Hl))).
      destruct e; reflexivity. }
    rewrite (bind_ok _ _ _ _ _ _ Hd). reflexivity.
  - unfold BrowserMcp.extract_screenshots.
    rewrite bind_path_exists, bool_decide_true by exact Hin. cbn [negb].
    unfold BrowserMcp.attempt.
    rewrite (try_except_raise _ _ _ _ _ _
               (bind_raise _ _ _ _ _ _ (load_failure_run P input e fs Hl))).
    rewrite mcp_handler_run. reflexivity.
Qed.

Lemma unloadable_input_is_reported_witness :
  let P := Fixture.python [] Fixture.times [] in
  let fs : gmap str node := {[ Fixture.input := File (lit "not json") ]} in
  Root.extract_screenshots P Fixture.input fs =
    Outcome (Ok tt) fs
      [Root.Banner; Root.Rule; Root.ReadingFrom Fixture.input;
       Root.InvalidJSON JSONDecodeError]
  /\ BrowserMcp.extract_screenshots P Fixture.input fs =
    Outcome (Ok tt) fs
      [BrowserMcp.ErrorParsingJSON JSONDecodeError; BrowserMcp.HintValidJSON].
Proof.
  intros P fs.
  apply (unloadable_input_is_reported P Fixture.input JSONDecodeError fs).
  - vm_compute. eauto.
  - reflexivity.
Defined.

(** ** The wrapped shape *)

(** X5: when the text inside a wrapped document does not decode, the
    browser-mcp script does not fall back to an empty document: the
    exception reaches the handlers of the pass, which report it (a JSON
    decode error as a parse error). No directory is made and nothing is
    written. *)
Theorem mcp_inner_text_failure_is_reported (P : platform) (input text : str)
    (fields first : list (str * json)) (rest : list json) (inner : str)
    (e : exn) (fs : gmap str node) :
  fs !! input = Some (File text) ->
  read_error P fs input = None ->
  json_loads P text = Ok (JObj fields) ->
  dict_get fields (lit "contents") = Some (JArr (JObj first :: rest)) ->
  dict_get first (lit "text") = Some (JStr inner) ->
  json_loads P inner = Raise e ->
  BrowserMcp.extract_screenshots P input fs =
    Outcome (Ok tt) fs
      (BrowserMcp.ReadingFrom input
         :: match e with
            | JSONDecodeError =>
                [BrowserMcp.ErrorParsingJSON e; BrowserMcp.HintValidJSON]
            | _ => [BrowserMcp.UnexpectedError e]
            end).
Proof.
  intros Hf Hr Hj Hc Ht He.
  rewrite (mcp_run_loaded P input text (JObj fields) fs Hf Hr Hj). cbn zeta.
  assert (BrowserMcp.recent_results P (JObj fields) = Raise e) as E.
  { unfold BrowserMcp.recent_results, BrowserMcp.has_contents, py_in,
      subscript_key, BrowserMcp.loads.
    cbn [res_bind]. rewrite Hc.
    rewrite bool_decide_true by eauto. cbn. rewrite Ht. cbn. now rewrite He. }
  unfold BrowserMcp.extract_from. rewrite bind_lift, E.
  cbn [result disk printed]. rewrite mcp_handler_run. destruct e; reflexivity.
Qed.

Lemma mcp_inner_text_failure_is_reported_witness :
  let doc := JObj [(lit "contents", JArr [JObj [(lit "text", JStr (lit "oops"))]])] in
  let P := Fixture.python [doc] Fixture.times [] in
  BrowserMcp.extract_screenshots P Fixture.input (Fixture.cwd doc) =
    Outcome (Ok tt) (Fixture.cwd doc)
      [BrowserMcp.ReadingFrom Fixture.input;
       BrowserMcp.ErrorParsingJSON JSONDecodeError; BrowserMcp.HintValidJSON].
Proof.
  intros doc P.
  apply (mcp_inner_text_failure_is_reported P Fixture.input (Fixture.dumps doc)
           [(lit "contents", JArr [JObj [(lit "text", JStr (lit "oops"))]])]
           [(lit "text", JStr (lit "oops"))] [] (lit "oops") JSONDecodeError
           (Fixture.cwd doc)); reflexivity.
Defined.

(** X6: the wrapped shape is recognized by a non-empty [contents] only.
    With [contents] an empty list the browser-mcp script reads
    [recentResults] from the top level, as for a document without
    [contents]; with a first element that has no [text], it parses the
    default text [{}] instead. *)
Theorem mcp_contents_edge_cases (P : platform) (fields : list (str * json)) :
  (dict_get fields (lit "contents") = Some (JArr []) ->
   BrowserMcp.recent_results P (JObj fields) = BrowserMcp.direct (JObj fields))
  /\ (forall first rest,
        dict_get fields (lit "contents") = Some (JArr (JObj first :: rest)) ->
        dict_get first (lit "text") = None ->
        BrowserMcp.recent_results P (JObj fields) =
        res_bind (json_loads P (lit "{}")) BrowserMcp.direct).
Proof.
  split.
  - intros Hc. unfold BrowserMcp.recent_results, BrowserMcp.has_contents, py_in,
      subscript_key.
    cbn [res_bind]. rewrite Hc. rewrite bool_decide_true by eauto. reflexivity.
  - intros first rest Hc Ht.
    unfold BrowserMcp.recent_results, BrowserMcp.has_contents, py_in,
      subscript_key, BrowserMcp.loads.
    cbn [res_bind]. rewrite Hc. rewrite bool_decide_true by eauto. cbn.
    rewrite Ht. reflexivity.
Qed.

Lemma mcp_contents_edge_cases_witness :
  let P := Fixture.python [JObj []] Fixture.times [] in
  BrowserMcp.recent_results P
    (JObj [(lit "contents", JArr []);
           (lit "recentResults", JArr [Fixture.entry_a])])
  = Ok (JArr [Fixture.entry_a])
  /\ BrowserMcp.recent_results P
       (JObj [(lit "contents", JArr [JObj []])])
     = Ok (JArr []).
Proof.
  intros P. split.
  - destruct (mcp_contents_edge_cases P
                [(lit "contents", JArr []);
                 (lit "recentResults", JArr [Fixture.entry_a])]) as [H _].
    rewrite H; reflexivity.
  - destruct (mcp_contents_edge_cases P [(lit "contents", JArr [JObj []])])
      as [_ H].
    rewrite (H [] []); reflexivity.
Defined.


(** ** What a run of the browser-mcp script touches and reports *)




Lemma mcp_successes_app l1 l2 :
  BrowserMcp.successes (l1 ++ l2)
  = BrowserMcp.successes l1 ++ BrowserMcp.successes l2.
Proof. apply omap_app. Qed.

Lemma mcp_body_no_success (P : platform) i e c fs :
  BrowserMcp.successes (printed (BrowserMcp.body P i e c fs)) = [].
Proof.
  pose proof (mcp_body_cases P i e c fs) as Hb.
  destruct (screenshot_of e) as [s|].
  - rewrite Hb.
    destruct (mcp_save_cases P i e s c fs)
      as [[err ->]|[(t & d & err & ->)|(t & d & url & ts & ->)]]; reflexivity.
  - destruct Hb as [[_ [err ->]]| ->]; [reflexivity|].
    destruct (mcp_skip_cases i e fs) as [(l & Hl & E)|[_ [err E]]];
      unfold bind; rewrite E; cbn; [|reflexivity].
    destruct l; try discriminate; reflexivity.
Qed.

Lemma mcp_loop_no_success (P : platform) items : forall i c fs,
  BrowserMcp.successes
    (printed (for_enumerate (BrowserMcp.body P) i items c fs)) = [].
Proof.
  induction items as [|e rest IH]; intros i c fs; [reflexivity|].
  cbn [for_enumerate]. unfold bind.
  pose proof (mcp_body_no_success P i e c fs) as Hb.
  destruct (BrowserMcp.body P i e c fs) as [[c'|err] d ls];
    cbn [result disk printed] in *; [|exact Hb].
  now rewrite mcp_successes_app, Hb, IH.
Qed.

(** X8: the total in the success line of the browser-mcp script is the
    number of files it confirmed. Every run prints at most one success
    line; when it prints one, its count is positive and equals the number
    of confirmation lines, and its directory is the output directory. *)
Theorem mcp_total_is_confirmed_files (P : platform) (input : str)
    (fs : gmap str node) :
  let o := BrowserMcp.extract_screenshots P input fs in
  BrowserMcp.successes (printed o) = []
  \/ exists n,
       0 < n
       /\ BrowserMcp.successes (printed o) = [(n, output_dir)]
       /\ length (BrowserMcp.shots (printed o)) = n.
Proof.
  cbn zeta. unfold BrowserMcp.extract_screenshots. rewrite bind_path_exists.
  destruct (bool_decide (is_Some (fs !! input))); cbn [negb]; [|left; reflexivity].
  unfold try_except, BrowserMcp.attempt.
  destruct (load_cases (line:=BrowserMcp.line) P input fs) as [r El].
  destruct r as [data|err].
  2:{ rewrite (bind_raise _ _ _ _ _ _ El). cbn [result disk printed].
      rewrite mcp_handler_run. left. destruct err; reflexivity. }
  rewrite (bind_ok _ _ _ _ _ _ El). rewrite bind_print.
  cbn [result disk printed app].
  change (BrowserMcp.ReadingFrom input :: ?x)
    with ([BrowserMcp.ReadingFrom input] ++ x).
  destruct (mcp_extract_from_cases P data fs)
    as [[err E]|[E|[[err E]|[items E]]]].
  - rewrite E. cbn [result disk printed]. rewrite mcp_handler_run.
    left. destruct err; reflexivity.
  - rewrite E. left. reflexivity.
  - rewrite E. cbn [result disk printed]. rewrite mcp_handler_run.
    left. destruct err; reflexivity.
  - cbn zeta in E. rewrite E.
    pose proof (mcp_loop_no_success P items 0 0 (<[output_dir:=Dir]> fs)) as Hns.
    destruct (mcp_loop_accounted P items 0 0 (<[output_dir:=Dir]> fs))
      as (outs & H1 & _ & _ & _ & H5 & _).
    revert Hns H1 H5.
    generalize (for_enumerate (BrowserMcp.body P) 0 items 0 (<[output_dir:=Dir]> fs)).
    intros [[n|err] d ls]; cbn [result disk printed]; intros Hns H1 H5.
    + destruct (H5 n eq_refl) as (Hn & _). cbn in Hn.
      rewrite (mcp_successes_app [BrowserMcp.ReadingFrom input]),
        mcp_successes_app, Hns.
      rewrite (shots_app [BrowserMcp.ReadingFrom input]), shots_app, H1.
      cbn [app]. unfold BrowserMcp.summary.
      destruct (Nat.eqb_spec n 0) as [->|Hpos]; [left; reflexivity|].
      right. exists n. split_and!; [lia|reflexivity|].
      cbn. rewrite length_app, !length_fmap. cbn. lia.
    + rewrite mcp_handler_run. cbn [result disk printed].
      rewrite (mcp_successes_app [BrowserMcp.ReadingFrom input]),
        mcp_successes_app, Hns.
      left. destruct err; reflexivity.
Qed.

(** ** The total of the first script *)




(** ** The loop *)





(** ** File names *)

(** [str.replace] on one-character strings is a map over the
    characters. *)
Lemma replace_char (s : str) (a b : N) :
  replace s [a] [b] = (fun c => if N.eqb a c then b else c) <$> s.
Proof.
  unfold replace. induction s as [|c s IH]; [reflexivity|].
  cbn [replace_from startswith length Nat.sub fmap list_fmap].
  rewrite andb_true_r. destruct (N.eqb a c); cbn [app]; now rewrite IH.
Qed.

Lemma startswith_elem (s old : str) (x : N) :
  startswith s old = true -> x ∈ old -> x ∈ s.
Proof.
  intros [rest ->]%startswith_spec Hx. apply elem_of_app. now left.
Qed.

(** Nothing is replaced in a string that lacks a character of [old]. *)
Lemma replace_absent (s old new : str) (x : N) :
  x ∈ old -> x ∉ s -> replace s old new = s.
Proof.
  intros Hx. unfold replace. induction s as [|c s IH]; intros Hs; [reflexivity|].
  cbn [replace_from].
  destruct (startswith (c :: s) old) eqn:E.
  - destruct Hs. eapply startswith_elem; eauto.
  - f_equal. apply IH. intros H. apply Hs. now right.
Qed.

Lemma replace_from_skip (old new pre rest : str) :
  replace_from old new (length pre) (pre ++ rest) = replace_from old new 0 rest.
Proof.
  induction pre as [|c pre IH]; [reflexivity|]. cbn [length app replace_from].
  destruct rest as [|r rest'] eqn:E.
  - rewrite app_nil_r in *. destruct pre; cbn in *; [reflexivity|exact IH].
  - exact IH.
Qed.

(** A leading occurrence is replaced, and the search goes on after it. *)
Lemma replace_head (old new rest : str) :
  old <> [] ->
  replace (old ++ rest) old new = new ++ replace rest old new.
Proof.
  destruct old as [|a old]; [congruence|]. intros _. unfold replace.
  cbn [app replace_from].
  assert (startswith (a :: old ++ rest) (a :: old) = true) as ->
    by (apply startswith_spec; now exists rest).
  cbn [length Nat.sub]. rewrite Nat.sub_0_r. now rewrite replace_from_skip.
Qed.

Lemma elem_of_take_in {A} (x : A) n (l : list A) : x ∈ take n l -> x ∈ l.
Proof.
  intros H. rewrite <- (take_drop n l). apply elem_of_app. now left.
Qed.

Lemma lit_slash : lit "/" = [47%N].
Proof. reflexivity. Qed.
Lemma lit_colon : lit ":" = [58%N].
Proof. reflexivity. Qed.
Lemma lit_underscore : lit "_" = [95%N].
Proof. reflexivity. Qed.
Lemma lit_dash : lit "-" = [45%N].
Proof. reflexivity. Qed.
Lemma lit_T : lit "T" = [84%N].
Proof. reflexivity. Qed.

Lemma clean_url_eq (url : str) :
  Root.clean_url url =
  take 50 ((fun c => if N.eqb 58 c then 95%N else c) <$>
           ((fun c => if N.eqb 47 c then 95%N else c) <$>
            replace (replace url (lit "https://") []) (lit "http://") [])).
Proof.
  unfold Root.clean_url.
  rewrite lit_slash, lit_colon, lit_underscore, !replace_char.
  destruct (Nat.ltb_spec 50 (length
    ((fun c => if N.eqb 58 c then 95%N else c) <$>
     ((fun c => if N.eqb 47 c then 95%N else c) <$>
      replace (replace url (lit "https://") []) (lit "http://") []))));
    [reflexivity|].
  now rewrite take_ge by lia.
Qed.

(** X11: [clean_url], the URL part of the first script's file names, has
    at most 50 characters and contains neither a slash nor a colon, so it
    never adds a directory level to the path. *)
Theorem clean_url_is_one_component (url : str) :
  length (Root.clean_url url) <= 50
  /\ (47%N ∉ Root.clean_url url)
  /\ (58%N ∉ Root.clean_url url).
Proof.
  rewrite clean_url_eq. split_and!.
  - rewrite length_take. lia.
  - intros H%elem_of_take_in.
    apply list_elem_of_fmap in H as (y & Hy & H).
    apply list_elem_of_fmap in H as (x & Hx & _).
    subst y. destruct (N.eqb_spec 47 x) as [E|Hne];
      [|destruct (N.eqb_spec 58 x)]; cbn in Hy; try discriminate; congruence.
  - intros H%elem_of_take_in.
    apply list_elem_of_fmap in H as (y & Hy & _).
    destruct (N.eqb_spec 58 y); [discriminate|congruence].
Qed.

Lemma lit_https : lit "https://" = [104; 116; 116; 112; 115; 58; 47; 47]%N.
Proof. reflexivity. Qed.
Lemma lit_http : lit "http://" = [104; 116; 116; 112; 58; 47; 47]%N.
Proof. reflexivity. Qed.

Lemma colon_in_https : 58%N ∈ lit "https://".
Proof. rewrite lit_https. apply (bool_decide_unpack _). vm_compute. exact I. Qed.
Lemma colon_in_http : 58%N ∈ lit "http://".
Proof. rewrite lit_http. apply (bool_decide_unpack _). vm_compute. exact I. Qed.

Lemma map_absent (a b : N) (l : str) :
  a ∉ l -> (fun c => if N.eqb a c then b else c) <$> l = l.
Proof.
  induction l as [|c l IH]; intros H; [reflexivity|]. cbn.
  apply not_elem_of_cons in H as [Hc Hl].
  destruct (N.eqb_spec a c); [congruence|]. now rewrite IH.
Qed.

(** X12: for a URL without a colon after its scheme (no port, no second
    scheme), [clean_url] drops a leading [https://] or [http://], turns
    every slash into an underscore and keeps the first 50 characters;
    nothing else changes. A URL without a scheme is treated the same
    way. *)
Theorem clean_url_strips_scheme (rest : str) :
  58%N ∉ rest ->
  let cleaned := take 50 ((fun c => if N.eqb 47 c then 95%N else c) <$> rest) in
  Root.clean_url (lit "https://" ++ rest) = cleaned
  /\ Root.clean_url (lit "http://" ++ rest) = cleaned
  /\ Root.clean_url rest = cleaned.
Proof.
  intros Hc. cbn zeta.
  assert (replace rest (lit "https://") [] = rest) as E1
    by (apply (replace_absent _ _ _ 58%N); [apply colon_in_https|exact Hc]).
  assert (replace rest (lit "http://") [] = rest) as E2
    by (apply (replace_absent _ _ _ 58%N); [apply colon_in_http|exact Hc]).
  assert (58%N ∉ (fun c => if N.eqb 47 c then 95%N else c) <$> rest) as Hm.
  { intros (x & Hx & Hin)%list_elem_of_fmap.
    destruct (N.eqb_spec 47 x); [discriminate|congruence]. }
  rewrite !clean_url_eq. split_and!.
  - rewrite replace_head by (rewrite lit_https; discriminate).
    cbn [app]. now rewrite E1, E2, (map_absent 58 95) by exact Hm.
  - assert (replace (lit "http://" ++ rest) (lit "https://") []
            = lit "http://" ++ rest) as ->.
    { rewrite lit_http, lit_https. unfold replace. cbn. fold (replace rest
        [104; 116; 116; 112; 115; 58; 47; 47]%N []).
      rewrite <- lit_https, E1. reflexivity. }
    rewrite replace_head by (rewrite lit_http; discriminate).
    cbn [app]. now rewrite E2, (map_absent 58 95) by exact Hm.
  - now rewrite E1, E2, (map_absent 58 95) by exact Hm.
Qed.

Lemma clean_url_strips_scheme_witness :
  Root.clean_url (lit "https://" ++ lit "y.org/q?r=1") = lit "y.org_q?r=1".
Proof.
  destruct (clean_url_strips_scheme (lit "y.org/q?r=1")) as [H _].
  - apply (bool_decide_unpack _). vm_compute. exact I.
  - rewrite H. reflexivity.
Defined.

Lemma split_head_no_sep (s : str) (sep : N) : sep ∉ split_head s sep.
Proof.
  induction s as [|c s IH]; cbn [split_head]; [apply not_elem_of_nil|].
  destruct (N.eqb_spec c sep); [apply not_elem_of_nil|].
  apply not_elem_of_cons. split; [congruence|exact IH].
Qed.

Lemma split_head_elem (s : str) (sep x : N) : x ∈ split_head s sep -> x ∈ s.
Proof.
  induction s as [|c s IH]; cbn [split_head]; [trivial|].
  destruct (N.eqb c sep); [intros H; now apply elem_of_nil in H|].
  intros [->|H]%elem_of_cons; [left|right; auto].
Qed.

Lemma split_head_length (s : str) (sep : N) : length (split_head s sep) <= length s.
Proof.
  induction s as [|c s IH]; cbn [split_head length]; [lia|].
  destruct (N.eqb c sep); cbn [length]; lia.
Qed.

Lemma split_head_absent (s : str) (sep : N) : sep ∉ s -> split_head s sep = s.
Proof.
  induction s as [|c s IH]; cbn [split_head]; [trivial|].
  intros [Hc Hs]%not_elem_of_cons.
  destruct (N.eqb_spec c sep); [congruence|]. now rewrite IH.
Qed.

Lemma timestamp_str_eq (t : str) (i : nat) :
  t <> [] ->
  Root.timestamp_str (JStr t) i =
  Ok (split_head ((fun c => if N.eqb 84 c then 95%N else c) <$>
                  ((fun c => if N.eqb 58 c then 45%N else c) <$> t)) 46%N).
Proof.
  intros Ht. unfold Root.timestamp_str.
  destruct t as [|c t]; [congruence|]. cbn [truthy length Nat.eqb negb the_str res_bind].
  now rewrite lit_colon, lit_dash, lit_T, lit_underscore, !replace_char.
Qed.

(** X13: for a non-empty timestamp string, the time part of the first
    script's file name is the timestamp up to its first dot with every
    colon turned into a dash and every [T] into an underscore: it holds no
    colon, no [T] and no dot, is no longer than the timestamp, and is the
    timestamp itself when that has none of the three. *)
Theorem timestamp_str_is_sanitised (t : str) (i : nat) :
  t <> [] ->
  exists s,
    Root.timestamp_str (JStr t) i = Ok s
    /\ (58%N ∉ s) /\ (84%N ∉ s) /\ (46%N ∉ s)
    /\ length s <= length t
    /\ ((58%N ∉ t) -> (84%N ∉ t) -> (46%N ∉ t) -> s = t).
Proof.
  intros Ht. eexists. split; [apply timestamp_str_eq, Ht|]. split_and!.
  - intros H%split_head_elem.
    apply list_elem_of_fmap in H as (y & Hy & H).
    apply list_elem_of_fmap in H as (x & Hx & _). subst y.
    destruct (N.eqb_spec 58 x) as [E|Hne]; [cbn in Hy; congruence|].
    destruct (N.eqb_spec 84 x); congruence.
  - intros H%split_head_elem.
    apply list_elem_of_fmap in H as (y & Hy & _).
    destruct (N.eqb_spec 84 y); congruence.
  - apply split_head_no_sep.
  - etransitivity; [apply split_head_length|]. now rewrite !length_fmap.
  - intros H1 H2 H3.
    rewrite (map_absent 58 45 t H1), (map_absent 84 95 t H2).
    now apply split_head_absent.
Qed.

Lemma timestamp_str_is_sanitised_witness :
  exists s,
    Root.timestamp_str (JStr (lit "2025-01-15T10:30:00.000Z")) 0 = Ok s
    /\ (58%N ∉ s) /\ (46%N ∉ s).
Proof.
  destruct (timestamp_str_is_sanitised (lit "2025-01-15T10:30:00.000Z") 0)
    as (s & E & H1 & _ & H2 & _).
  - intros H. vm_compute in H. discriminate H.
  - exists s. split_and!; assumption.
Defined.

Lemma root_filename_of_obj (P : platform) (i : nat) (fields : list (str * json)) :
  Root.filename_of P i (JObj fields) =
  res_bind (the_str (default (JStr (lit "unknown_url")) (dict_get fields (lit "url"))))
    (fun url_text =>
  res_bind (Root.timestamp_str (default (JStr []) (dict_get fields (lit "timestamp"))) i)
    (fun timestamp_str =>
  Ok (Root.filename P timestamp_str (Root.clean_url url_text)
        (default (JStr (lit "result_" ++ decimal i)) (dict_get fields (lit "id")))))).
Proof. reflexivity. Qed.

Lemma root_filename_of_not_obj (P : platform) (i : nat) (e : json) (name : str) :
  Root.filename_of P i e = Ok name -> exists fields, e = JObj fields.
Proof. destruct e; try discriminate. eauto. Qed.

Lemma path_join_relative (a b : str) (c : N) (b' : str) :
  b = c :: b' -> c <> 47%N -> path_join a b = a ++ lit "/" ++ b.
Proof.
  intros -> Hc. unfold path_join. rewrite lit_slash. cbn [startswith].
  destruct (N.eqb_spec 47 c); [congruence|reflexivity].
Qed.

Lemma lit_screenshot_ : lit "screenshot_" = 115%N :: lit "creenshot_".
Proof. reflexivity. Qed.

Lemma lit_output_dir : output_dir = 101%N :: lit "xtracted_screenshots".
Proof. reflexivity. Qed.

Lemma sanitised_head (c : N) (t rest : str) :
  c <> 47%N ->
  exists c0 r,
    split_head ((fun c => if N.eqb 84 c then 95%N else c) <$>
                ((fun c => if N.eqb 58 c then 45%N else c) <$> (c :: t))) 46%N
    ++ 95%N :: rest = c0 :: r /\ c0 <> 47%N.
Proof.
  intros Hc. rewrite !fmap_cons.
  assert ((if N.eqb 84 (if N.eqb 58 c then 45%N else c) then 95%N
           else (if N.eqb 58 c then 45%N else c)) <> 47%N) as H.
  { destruct (N.eqb 58 c); [discriminate|]. now destruct (N.eqb 84 c). }
  revert H.
  generalize (if N.eqb 84 (if N.eqb 58 c then 45%N else c) then 95%N
              else (if N.eqb 58 c then 45%N else c)).
  intros c' Hc'. cbn [split_head]. destruct (N.eqb c' 46); cbn [app].
  - eexists _, _. split; [reflexivity|discriminate].
  - eexists _, _. split; [reflexivity|exact Hc'].
Qed.

(** The first character of the time part is never a slash unless the
    timestamp itself begins with one. *)
Lemma timestamp_str_head (v : json) (i : nat) (s rest : str) :
  Root.timestamp_str v i = Ok s ->
  (forall t, v <> JStr (47%N :: t)) ->
  exists c r, s ++ lit "_" ++ rest = c :: r /\ c <> 47%N.
Proof.
  intros E Hv.
  assert (Root.timestamp_str v i = Ok (lit "screenshot_" ++ decimal i) ->
          exists c r, s ++ lit "_" ++ rest = c :: r /\ c <> 47%N) as Hfalse.
  { rewrite E. intros [= ->]. rewrite lit_screenshot_. cbn [app].
    eexists _, _. split; [reflexivity|discriminate]. }
  destruct v as [| | | |t| |].
  5:{ destruct t as [|c t]; [apply Hfalse; reflexivity|].
      assert (c <> 47%N) as Hc by (intros ->; now apply (Hv t)).
      rewrite timestamp_str_eq in E by discriminate. injection E as <-.
      rewrite lit_underscore. now apply sanitised_head. }
  all: unfold Root.timestamp_str in E, Hfalse;
    destruct (truthy _); [discriminate E|apply Hfalse; reflexivity].
Qed.

(** X14: where the first script writes. The path of an entry's file is
    the file name itself, outside [extracted_screenshots], exactly when
    the entry's timestamp is a string that begins with a slash: the name
    then begins with that slash and [os.path.join] discards the
    directory. For every other entry the path is the directory, a slash
    and the name. *)
Theorem root_path_leaves_directory_iff (P : platform) (i : nat)
    (fields : list (str * json)) (name : str) :
  Root.filename_of P i (JObj fields) = Ok name ->
  (forall t, dict_get fields (lit "timestamp") = Some (JStr (47%N :: t)) ->
     path_join output_dir name = name
     /\ startswith name (lit "/") = true
     /\ startswith name output_dir = false)
  /\ ((forall t, dict_get fields (lit "timestamp") <> Some (JStr (47%N :: t))) ->
      path_join output_dir name = output_dir ++ lit "/" ++ name).
Proof.
  rewrite root_filename_of_obj. intros E.
  destruct (the_str _) as [url_text|] eqn:Eu; [|discriminate E].
  cbn [res_bind] in E.
  destruct (Root.timestamp_str _ i) as [ts|] eqn:Et; [|discriminate E].
  cbn [res_bind] in E. injection E as <-. unfold Root.filename. split.
  - intros t Hd. rewrite Hd in Et. cbn [default from_option id] in Et.
    rewrite timestamp_str_eq in Et by discriminate. injection Et as <-.
    cbn [fmap list_fmap]. change (N.eqb 58 47) with false. cbn iota.
    change (N.eqb 84 47) with false. cbn iota. cbn [split_head].
    change (N.eqb 47 46) with false. cbn iota. cbn [app].
    unfold path_join. rewrite lit_slash, lit_output_dir. cbn [startswith].
    change (N.eqb 47 47) with true. change (N.eqb 101 47) with false.
    split_and!; reflexivity.
  - intros Hd.
    destruct (timestamp_str_head _ i ts
                (Root.clean_url url_text ++ lit "_"
                 ++ format_value P (default (JStr (lit "result_" ++ decimal i))
                                      (dict_get fields (lit "id")))
                 ++ lit ".txt") Et) as (c & r & Er & Hc).
    + intros t Hv. apply (Hd t).
      destruct (dict_get fields (lit "timestamp")); cbn in Hv; [congruence|discriminate].
    + eapply path_join_relative; eauto.
Qed.

Lemma root_path_leaves_directory_iff_witness :
  let P := Fixture.python [] Fixture.times [] in
  let name :=
    Root.filename P (lit "/tmp/x") (lit "unknown_url") (JStr (lit "result_0")) in
  path_join output_dir name = name.
Proof.
  intros P name.
  refine (proj1 (proj1 (root_path_leaves_directory_iff P 0
                          [(lit "timestamp", JStr (lit "/tmp/x"))] name _)
                   (lit "tmp/x") _)).
  - reflexivity.
  - reflexivity.
Defined.

Lemma decimal_inj (n m : nat) : decimal n = decimal m -> n = m.
Proof.
  intros H%digits_inj.
  rewrite <- (DecimalNat.Unsigned.of_to n), <- (DecimalNat.Unsigned.of_to m).
  now rewrite H.
Qed.

Lemma timestamp_str_falsy (v : json) (i : nat) :
  truthy v = false -> Root.timestamp_str v i = Ok (lit "screenshot_" ++ decimal i).
Proof. intros H. unfold Root.timestamp_str. now rewrite H. Qed.

Lemma timestamp_str_truthy (v : json) (i j : nat) :
  truthy v = true -> Root.timestamp_str v i = Root.timestamp_str v j.
Proof. intros H. unfold Root.timestamp_str. now rewrite H. Qed.

(** X15: what the index does in the first script's file names. Entries
    whose timestamp is missing or falsy get [screenshot_<index>] as the
    time part, so two of them at different indices never share a name,
    whatever their URLs and ids. An entry with a timestamp and an id gets
    a name without the index: the same entry at another place in the list
    has the same name. *)
Theorem root_index_in_filename (P : platform) (i j : nat)
    (f1 f2 : list (str * json)) :
  (i <> j ->
   (forall v, dict_get f1 (lit "timestamp") = Some v -> truthy v = false) ->
   (forall v, dict_get f2 (lit "timestamp") = Some v -> truthy v = false) ->
   forall n1 n2,
     Root.filename_of P i (JObj f1) = Ok n1 ->
     Root.filename_of P j (JObj f2) = Ok n2 ->
     n1 <> n2)
  /\ (forall v,
        dict_get f1 (lit "timestamp") = Some v -> truthy v = true ->
        is_Some (dict_get f1 (lit "id")) ->
        Root.filename_of P i (JObj f1) = Root.filename_of P j (JObj f1)).
Proof.
  split.
  - intros Hij H1 H2 n1 n2. rewrite !root_filename_of_obj.
    rewrite (timestamp_str_falsy (default (JStr []) (dict_get f1 (lit "timestamp"))) i),
            (timestamp_str_falsy (default (JStr []) (dict_get f2 (lit "timestamp"))) j).
    2:{ destruct (dict_get f2 (lit "timestamp")); [now apply H2|reflexivity]. }
    2:{ destruct (dict_get f1 (lit "timestamp")); [now apply H1|reflexivity]. }
    destruct (the_str _) as [u1|]; [|discriminate].
    destruct (the_str _) as [u2|]; [|discriminate].
    cbn [res_bind]. intros [= <-] [= <-] E. unfold Root.filename in E.
    rewrite <- !(app_assoc (lit "screenshot_")) in E.
    apply app_inv_head in E. rewrite lit_underscore in E. cbn [app] in E.
    apply digit_run_inj in E.
    + now apply decimal_inj in E.
    + apply digits_are_digits.
    + apply digits_are_digits.
    + unfold is_digit. lia.
  - intros v Hv Ht [r Hr]. rewrite !root_filename_of_obj, Hv, Hr.
    cbn [default from_option id].
    now rewrite (timestamp_str_truthy v i j Ht).
Qed.

Lemma root_index_in_filename_witness :
  let P := Fixture.python [] Fixture.times [] in
  Root.filename_of P 0 (JObj []) <> Root.filename_of P 1 (JObj [])
  /\ Root.filename_of P 0 Fixture.entry_a = Root.filename_of P 1 Fixture.entry_a.
Proof.
  intros P.
  destruct (root_index_in_filename P 0 1 [] []) as [H1 _].
  destruct (root_index_in_filename P 0 1
              [(lit "id", JStr (lit "a"));
               (lit "url", JStr (lit "http://x.com/p"));
               (lit "timestamp", JStr (lit "2024-01-01T00:00:00Z"));
               (lit "metadata", JObj [(lit "screenshot", JStr Fixture.screenshot_a)])]
              []) as [_ H2].
  split.
  - intros E.
    refine (H1 _ _ _ _ _ eq_refl eq_refl _); [lia|discriminate|discriminate|].
    now injection E.
  - refine (H2 _ eq_refl eq_refl _). now eexists.
Defined.

(** *** The browser-mcp script's [domain] *)

Lemma lit_allowed : lit ".-_" = [46; 45; 95]%N.
Proof. reflexivity. Qed.

Lemma mcp_domain_chars (P : platform) (url : str) (c : N) :
  c ∈ BrowserMcp.domain P url ->
  isalnum P c = true \/ c = 46%N \/ c = 45%N \/ c = 95%N.
Proof.
  unfold BrowserMcp.domain.
  intros H%elem_of_take_in. apply list_elem_of_filter in H as [H _].
  apply Is_true_true in H. apply orb_true_iff in H as [H|H]; [now left|right].
  apply bool_decide_eq_true in H. rewrite lit_allowed, !elem_of_cons in H.
  destruct H as [->|[->|[->|H]]]; auto. now apply elem_of_nil in H.
Qed.

(** X16: the host part of the browser-mcp script's file names has at most
    30 characters, and each of them is alphanumeric, a dot, a dash or an
    underscore, whatever the URL is. *)
Theorem mcp_domain_is_plain (P : platform) (url : str) :
  length (BrowserMcp.domain P url) <= 30
  /\ forall c, c ∈ BrowserMcp.domain P url ->
       isalnum P c = true \/ c = 46%N \/ c = 45%N \/ c = 95%N.
Proof.
  split; [|apply mcp_domain_chars].
  unfold BrowserMcp.domain. rewrite length_take. lia.
Qed.

Lemma startswith_across (pre post h rest : str) :
  47%N ∉ pre -> 58%N ∉ h ->
  startswith (h ++ 47%N :: rest) (pre ++ 58%N :: post) = false.
Proof.
  revert h. induction pre as [|a pre IH]; intros h Hp Hh.
  - destruct h as [|c h]; cbn [app startswith]; [reflexivity|].
    apply not_elem_of_cons in Hh as [Hc _].
    destruct (N.eqb_spec 58 c); [congruence|reflexivity].
  - apply not_elem_of_cons in Hp as [Ha Hp].
    destruct h as [|c h]; cbn [app startswith].
    + destruct (N.eqb_spec a 47); [congruence|reflexivity].
    + apply not_elem_of_cons in Hh as [_ Hh].
      rewrite (IH h Hp Hh). apply andb_false_r.
Qed.

(** A string before a slash that holds no colon is left alone by the
    removal of a scheme. *)
Lemma replace_across (pre post new h rest : str) :
  47%N ∉ pre -> 58%N ∉ h ->
  replace (h ++ 47%N :: rest) (pre ++ 58%N :: post) new
  = h ++ replace (47%N :: rest) (pre ++ 58%N :: post) new.
Proof.
  intros Hp. unfold replace. induction h as [|c h IH]; intros Hh; [reflexivity|].
  cbn [app replace_from].
  change (c :: h ++ 47%N :: rest) with ((c :: h) ++ 47%N :: rest).
  rewrite (startswith_across pre post (c :: h) rest Hp Hh).
  f_equal. apply IH. now apply not_elem_of_cons in Hh as [_ Hh].
Qed.

Lemma replace_slash_head (old new rest : str) (a : N) (old' : str) :
  old = a :: old' -> a <> 47%N ->
  replace (47%N :: rest) old new = 47%N :: replace rest old new.
Proof.
  intros -> Ha. unfold replace. cbn [replace_from startswith].
  destruct (N.eqb_spec a 47); [congruence|reflexivity].
Qed.

Lemma split_head_app (h rest : str) (sep : N) :
  sep ∉ h -> split_head (h ++ sep :: rest) sep = h.
Proof.
  induction h as [|c h IH]; cbn [app split_head].
  - now rewrite N.eqb_refl.
  - intros [Hc Hh]%not_elem_of_cons.
    destruct (N.eqb_spec c sep); [congruence|]. now rewrite IH.
Qed.

Lemma lit_https_split :
  lit "https://" = [104; 116; 116; 112; 115]%N ++ 58%N :: [47; 47]%N.
Proof. reflexivity. Qed.
Lemma lit_http_split :
  lit "http://" = [104; 116; 116; 112]%N ++ 58%N :: [47; 47]%N.
Proof. reflexivity. Qed.

Lemma no_slash_https : 47%N ∉ [104; 116; 116; 112; 115]%N.
Proof. apply (bool_decide_unpack _). vm_compute. exact I. Qed.
Lemma no_slash_http : 47%N ∉ [104; 116; 116; 112]%N.
Proof. apply (bool_decide_unpack _). vm_compute. exact I. Qed.

(** The host of a URL without its scheme: both removals leave it, and the
    split at the first slash cuts the path off. *)
Lemma host_of_rest (host tail : str) :
  47%N ∉ host -> 58%N ∉ host ->
  tail = [] \/ (exists path, tail = 47%N :: path) ->
  split_head (replace (replace (host ++ tail) (lit "https://") [])
                      (lit "http://") []) 47%N = host.
Proof.
  intros H47 H58 [->|[path ->]].
  - rewrite app_nil_r.
    rewrite (replace_absent host (lit "https://") [] 58%N colon_in_https H58),
            (replace_absent host (lit "http://") [] 58%N colon_in_http H58).
    now apply split_head_absent.
  - rewrite lit_https_split, (replace_across _ _ _ host path no_slash_https H58).
    rewrite (replace_slash_head ([104; 116; 116; 112; 115]%N ++ 58%N :: [47; 47]%N)
               [] path 104%N _ eq_refl) by discriminate.
    rewrite lit_http_split, (replace_across _ _ _ host _ no_slash_http H58).
    rewrite (replace_slash_head ([104; 116; 116; 112]%N ++ 58%N :: [47; 47]%N)
               [] _ 104%N _ eq_refl) by discriminate.
    now apply split_head_app.
Qed.

(** X17: for a URL made of an optional [http://] or [https://], a host of
    permitted characters without slash or colon, and then nothing or a
    path that begins with a slash, [domain] is the first 30 characters of
    the host: scheme and path are dropped, the host is kept as it is. *)
Theorem mcp_domain_is_host (P : platform) (scheme host tail : str) :
  scheme = [] \/ scheme = lit "http://" \/ scheme = lit "https://" ->
  Forall (fun c => isalnum P c || bool_decide (c ∈ lit ".-_") = true) host ->
  47%N ∉ host -> 58%N ∉ host ->
  tail = [] \/ (exists path, tail = 47%N :: path) ->
  BrowserMcp.domain P (scheme ++ host ++ tail) = take 30 host.
Proof.
  intros Hs Ha H47 H58 Ht. unfold BrowserMcp.domain. cbn zeta.
  assert (split_head (replace (replace (scheme ++ host ++ tail) (lit "https://") [])
                              (lit "http://") []) 47%N = host) as ->.
  { destruct Hs as [->|[->| ->]].
    - cbn [app]. now apply host_of_rest.
    - assert (replace (lit "http://" ++ host ++ tail) (lit "https://") []
              = lit "http://" ++ replace (host ++ tail) (lit "https://") []) as ->.
      { rewrite lit_http, lit_https. reflexivity. }
      rewrite replace_head by (rewrite lit_http; discriminate).
      cbn [app]. now apply host_of_rest.
    - rewrite replace_head by (rewrite lit_https; discriminate). cbn [app].
      now apply host_of_rest. }
  f_equal. clear H47 H58. induction Ha as [|c host Hc Ha IH]; [reflexivity|].
  rewrite filter_cons_True by (now apply Is_true_true). now rewrite IH.
Qed.

Lemma mcp_domain_is_host_witness :
  let P := Fixture.python [] Fixture.times [] in
  BrowserMcp.domain P (lit "https://" ++ lit "y.org" ++ lit "/q?r=1") = lit "y.org".
Proof.
  intros P.
  apply (mcp_domain_is_host P (lit "https://") (lit "y.org") (lit "/q?r=1")).
  - right; right; reflexivity.
  - apply (bool_decide_unpack _). vm_compute. exact I.
  - apply (bool_decide_unpack _). vm_compute. exact I.
  - apply (bool_decide_unpack _). vm_compute. exact I.
  - right. exists (lit "q?r=1"). reflexivity.
Defined.

Lemma lit_slash_screenshot : lit "/screenshot_" = lit "/" ++ lit "screenshot_".
Proof. reflexivity. Qed.

Lemma no_slash_in_digits (d : str) : Forall is_digit d -> 47%N ∉ d.
Proof.
  intros H Hin. rewrite Forall_forall in H. apply H in Hin.
  unfold is_digit in Hin. lia.
Qed.

Lemma no_slash_in_literals :
  (47%N ∉ lit "screenshot_") /\ (47%N ∉ lit "_") /\ (47%N ∉ lit ".txt")
  /\ (47%N ∉ lit "unknown_time").
Proof. split_and!; apply (bool_decide_unpack _); vm_compute; exact I. Qed.

(** X18: on a platform where a slash is not alphanumeric and formatted
    times hold no slash, every file name the browser-mcp script builds is
    [extracted_screenshots/] followed by a name without a slash: the file
    sits directly in the output directory, whatever the entry's URL and
    timestamp are. *)
Theorem mcp_filename_is_flat (P : platform) (n : nat) (timestamp : json)
    (url : str) :
  isalnum P 47%N = false ->
  (forall t s, fromisoformat_strftime P t = Some s -> 47%N ∉ s) ->
  exists base,
    BrowserMcp.filename n (BrowserMcp.time_str P timestamp) (BrowserMcp.domain P url)
    = output_dir ++ lit "/" ++ base
    /\ (47%N ∉ base).
Proof.
  intros Ha Ht. unfold BrowserMcp.filename.
  rewrite lit_slash_screenshot, <- !app_assoc.
  eexists. split; [reflexivity|].
  destruct no_slash_in_literals as (H1 & H2 & H3 & H4).
  rewrite !not_elem_of_app. split_and!; trivial.
  - apply no_slash_in_digits, format_02d_digits.
  - unfold BrowserMcp.time_str. destruct timestamp; trivial.
    destruct (fromisoformat_strftime P _) eqn:E; [eapply Ht, E|trivial].
  - intros [H|[H|[H|H]]]%mcp_domain_chars; congruence.
Qed.

Lemma mcp_filename_is_flat_witness :
  let P := Fixture.python [] [] [] in
  exists base,
    BrowserMcp.filename 1 (BrowserMcp.time_str P (JStr (lit "/etc")))
      (BrowserMcp.domain P (lit "a/../b"))
    = output_dir ++ lit "/" ++ base
    /\ (47%N ∉ base).
Proof.
  intros P.
  apply (mcp_filename_is_flat P 1 (JStr (lit "/etc")) (lit "a/../b")).
  - reflexivity.
  - intros t s H. discriminate H.
Defined.


(** ** What a run of the first script touches *)








(** ** The output directory is taken *)

Lemma makedirs_on_file {line : Type} (P : platform) (path t : str)
    (fs : gmap str node) :
  fs !! path = Some (File t) ->
  makedirs (line:=line) P path fs = Outcome (Raise FileExistsError) fs [].
Proof. intros H. unfold makedirs. now rewrite H. Qed.

(** X21: when [extracted_screenshots] exists as a regular file and the
    document lists at least one result, neither script writes anything.
    The first script prints the number of results and ends with an
    uncaught [FileExistsError], so its process exits with status 1; the
    browser-mcp script reports an unexpected error and returns
    normally. *)
Theorem output_dir_is_a_file (P : platform) (input text t : str)
    (fields : list (str * json)) (x : json) (l : list json)
    (fs : gmap str node) :
  fs !! input = Some (File text) ->
  read_error P fs input = None ->
  json_loads P text = Ok (JObj fields) ->
  dict_get fields (lit "contents") = None ->
  dict_get fields (lit "recentResults") = Some (JArr (x :: l)) ->
  fs !! output_dir = Some (File t) ->
  Root.extract_screenshots P input fs =
    Outcome (Raise FileExistsError) fs
      [Root.Banner; Root.Rule; Root.ReadingFrom input; Root.Found (S (length l))]
  /\ (forall prog, exit_status (Root.main P [prog; input] fs) = 1)
  /\ BrowserMcp.extract_screenshots P input fs =
    Outcome (Ok tt) fs
      [BrowserMcp.ReadingFrom input; BrowserMcp.UnexpectedError FileExistsError].
Proof.
  intros Hf Hr Hj Hc Hrr Hd.
  assert (Root.extract_screenshots P input fs =
          Outcome (Raise FileExistsError) fs
            [Root.Banner; Root.Rule; Root.ReadingFrom input;
             Root.Found (S (length l))]) as HR.
  { rewrite (root_run_loaded P input text (JObj fields) fs Hf Hr Hj). cbn zeta.
    assert (Root.extract_from P (JObj fields) fs =
            Outcome (Raise FileExistsError) fs [Root.Found (S (length l))]) as ->.
    { unfold Root.extract_from. run. rewrite Hrr. cbn [from_option id].
      run. rewrite bind_lift. cbn [len]. rewrite bind_print.
      now rewrite (bind_raise _ _ _ _ _ _
                     (makedirs_on_file (line:=Root.line) P output_dir t fs Hd)). }
    reflexivity. }
  split_and!.
  - exact HR.
  - intros prog. unfold Root.main. cbn [length Nat.eqb negb nth].
    unfold bind, relabel. rewrite HR. reflexivity.
  - rewrite (mcp_run_loaded P input text (JObj fields) fs Hf Hr Hj). cbn zeta.
    assert (BrowserMcp.extract_from P (JObj fields) fs =
            Outcome (Raise FileExistsError) fs []) as ->.
    { unfold BrowserMcp.extract_from.
      rewrite bind_lift, (mcp_direct_recent_results P fields (x :: l) Hc Hrr).
      cbn [truthy length Nat.eqb negb].
      now rewrite (bind_raise _ _ _ _ _ _
                     (makedirs_on_file (line:=BrowserMcp.line) P output_dir t fs Hd)). }
    reflexivity.
Qed.

Lemma output_dir_is_a_file_witness :
  let doc := Fixture.direct_doc [Fixture.entry_a] in
  let P := Fixture.python [doc] Fixture.times [] in
  let fs : gmap str node := <[output_dir := File []]> (Fixture.cwd doc) in
  result (Root.extract_screenshots P Fixture.input fs) = Raise FileExistsError
  /\ result (BrowserMcp.extract_screenshots P Fixture.input fs) = Ok tt.
Proof.
  intros doc P fs.
  destruct (output_dir_is_a_file P Fixture.input (Fixture.dumps doc) []
              [(lit "recentResults", JArr [Fixture.entry_a])] Fixture.entry_a [] fs)
    as (H1 & _ & H2); try reflexivity.
  rewrite H1, H2. split; reflexivity.
Defined.


(** ** Running a script a second time *)





Section WritesOnly.
Context {line : Type} (Q : str -> Prop).







Variable P : platform.
Hypothesis open_error_fixed :
  forall fs fs' p, open_error P fs p = open_error P fs' p.
Hypothesis write_error_fixed :
  forall fs fs' p s, write_error P fs p s = write_error P fs' p s.



End WritesOnly.


Section SecondRun.
Variable P : platform.
Hypothesis read_error_fixed :
  forall fs fs' p, read_error P fs p = read_error P fs' p.
Hypothesis open_error_fixed :
  forall fs fs' p, open_error P fs p = open_error P fs' p.
Hypothesis write_error_fixed :
  forall fs fs' p s, write_error P fs p s = write_error P fs' p s.










End SecondRun.




